(** * salet: Notion proxy gateway and dashboard aggregation

    A shallow embedding of [server.js] (the Express proxy in front of the
    Notion API; its second copy, exported for serverless hosting, has the
    same handlers) and of [handleFormSubmit] in [Dashboard.jsx], with the
    properties of the record normalizer, the aggregator, the request
    validation and the error branches; then of the start-up of the gateway,
    of the form of [AddForm.jsx] and of the metrics, the loading and the
    cache of the dashboard.

    Conventions of the embedding:
    - a JavaScript number is an IEEE-754 binary64 value, Rocq's primitive
      [float], with its rounding; the counters that the code only ever
      increments by one ([orders], [customers]) are integers ([Z]), which
      they are exactly in binary64 below 2^53;
    - a string is the sequence of the bytes of its UTF-8 encoding;
    - [undefined] and [null] of a typed field are both [None]: the code only
      ever tests such fields with [?.] and [||], which do not tell them apart;
    - an exception is a [Throw] of the [result] monad, so that a [try]/[catch]
      is a [match];
    - functions of the JavaScript runtime whose output depends on the locale
      or on chance ([toLocaleString], [toLocaleDateString], [Math.random],
      [Date.now]) are section variables, as is the coercion of a typed
      amount to a number. *)

From Stdlib Require Import ZArith List String Ascii Bool Lia DecimalString.
From Stdlib Require Import PrimFloat SpecFloat FloatOps.
Import ListNotations.

Local Open Scope string_scope.
Local Open Scope list_scope.
Local Set Warnings "-register-all,-abstract-large-number,-notation-for-abbreviation,-inexact-float".

(** ** JavaScript values and exceptions *)

Module JS.

(** A dynamically typed value: what [req.body] fields and an upstream error
    payload may hold. *)
Inductive value : Type :=
| VUndefined
| VNull
| VBool (b : bool)
| VNum (n : float)
| VStr (s : string)
| VArr (items : list value)
| VObj (fields : list (string * value)).

(** ToBoolean: the falsy values are [undefined], [null], [false], [0], [-0],
    [NaN] and [""]. *)
Definition truthy (v : value) : bool :=
  match v with
  | VUndefined | VNull => false
  | VBool b => b
  | VNum n => negb (is_zero n || is_nan n)
  | VStr s => negb (s =? "")
  | VArr _ | VObj _ => true
  end.

(** [a || b] *)
Definition or (a b : value) : value := if truthy a then a else b.

Fixpoint lookup (k : string) (fields : list (string * value)) : value :=
  match fields with
  | [] => VUndefined
  | (k', v) :: rest => if k' =? k then v else lookup k rest
  end.

(** [v?.k] for a key [k] that no primitive carries: [undefined] on a nullish
    or primitive [v], the field on an object. *)
Definition optGet (v : value) (k : string) : value :=
  match v with
  | VObj fields => lookup k fields
  | _ => VUndefined
  end.

(** [s || d] on a string field that may be absent. *)
Definition orStr (s : option string) (d : string) : string :=
  match s with
  | Some x => if x =? "" then d else x
  | None => d
  end.

(** [n || d] on a numeric field that may be absent. *)
Definition orNum (n : option float) (d : float) : float :=
  match n with
  | Some x => if is_zero x || is_nan x then d else x
  | None => d
  end.

(** [s || null] *)
Definition orNull (s : option string) : option string :=
  match s with
  | Some x => if x =? "" then None else Some x
  | None => None
  end.

(** [n.toString()] of a non-negative integer. *)
Definition toString (n : nat) : string :=
  NilEmpty.string_of_uint (Nat.to_uint n).

Fixpoint replicate (n : nat) (c : ascii) : string :=
  match n with
  | O => ""
  | S m => String c (replicate m c)
  end.

(** [s.padStart(width, c)] for a one-character filler. *)
Definition padStart (width : nat) (c : ascii) (s : string) : string :=
  replicate (width - String.length s) c ++ s.

Definition isDigit (c : ascii) : bool :=
  let n := nat_of_ascii c in (48 <=? n)%nat && (n <=? 57)%nat.

Definition digitVal (c : ascii) : Z := Z.of_nat (nat_of_ascii c - 48).

(** The white space of one byte: TAB, LF, VT, FF, CR and the space. *)
Definition isSpace (c : ascii) : bool :=
  let n := nat_of_ascii c in
  ((9 <=? n)%nat && (n <=? 13)%nat) || (n =? 32)%nat.

(** The white space of three bytes: U+1680, U+2000 to U+200A, U+2028,
    U+2029, U+202F, U+205F, U+3000 and U+FEFF. *)
Definition isSpace3 (c1 c2 c3 : ascii) : bool :=
  let b1 := nat_of_ascii c1 in
  let b2 := nat_of_ascii c2 in
  let b3 := nat_of_ascii c3 in
  ((b1 =? 225) && (b2 =? 154) && (b3 =? 128))%nat
  || ((b1 =? 226) && (b2 =? 128)
      && (((128 <=? b3) && (b3 <=? 138)) || (b3 =? 168) || (b3 =? 169)
          || (b3 =? 175)))%nat
  || ((b1 =? 226) && (b2 =? 129) && (b3 =? 159))%nat
  || ((b1 =? 227) && (b2 =? 128) && (b3 =? 128))%nat
  || ((b1 =? 239) && (b2 =? 187) && (b3 =? 191))%nat.

(** [s.trimStart()]: drops the leading WhiteSpace and LineTerminator code
    points, of one byte, of two (U+00A0) or of three. *)
Fixpoint skipWhiteSpace (s : string) : string :=
  match s with
  | String c1 r1 =>
      if isSpace c1 then skipWhiteSpace r1
      else
        match r1 with
        | String c2 r2 =>
            if ((nat_of_ascii c1 =? 194) && (nat_of_ascii c2 =? 160))%nat
            then skipWhiteSpace r2
            else
              match r2 with
              | String c3 r3 =>
                  if isSpace3 c1 c2 c3 then skipWhiteSpace r3 else s
              | EmptyString => s
              end
        | EmptyString => s
        end
  | EmptyString => s
  end.

(** Reads the run of digits at the head of [s] into [acc]: the number read,
    how many digits it has, and what follows. *)
Fixpoint readDigits (s : string) (acc : Z) (count : nat) : Z * nat * string :=
  match s with
  | String c rest =>
      if isDigit c then readDigits rest (10 * acc + digitVal c)%Z (S count)
      else (acc, count, s)
  | EmptyString => (acc, count, s)
  end.

(** The value of the ExponentPart at the head of [s]: [e] or [E], a sign if
    any, and at least one digit; 0 when there is none. *)
Definition readExponent (s : string) : Z :=
  match s with
  | String c rest =>
      if ((c =? "e") || (c =? "E"))%char
      then
        let '(negative, rest') :=
          match rest with
          | String "-" r => (true, r)
          | String "+" r => (false, r)
          | _ => (false, rest)
          end in
        let '(v, count, _) := readDigits rest' 0%Z 0 in
        if (count =? 0)%nat then 0%Z else if negative then (- v)%Z else v
      else 0%Z
  | EmptyString => 0%Z
  end.

(** The binary64 value nearest to [m * 10 ^ e10], ties to even: the quotient
    of two integers, rounded once. *)
Definition decimalToFloat (negative : bool) (m e10 : Z) : float :=
  match m with
  | Zpos p =>
      let num := match e10 with Zpos k => (p * 10 ^ k)%positive | _ => p end in
      let den := match e10 with Zneg k => (10 ^ k)%positive | _ => 1%positive end in
      SF2Prim (SFdiv prec emax (S754_finite negative num 0)
                     (S754_finite false den 0))
  | _ => if negative then neg_zero else zero
  end.

(** The longest StrUnsignedDecimalLiteral at the head of [s]: [Infinity],
    digits with an optional fraction and exponent, or a fraction that starts
    with the point; [NaN] when there is none. *)
Definition readUnsigned (negative : bool) (s : string) : float :=
  if prefix "Infinity" s
  then (if negative then neg_infinity else infinity)
  else
    let '(whole, wholeDigits, rest) := readDigits s 0%Z 0 in
    match rest with
    | String "." rest' =>
        let '(m, fractionDigits, rest'') := readDigits rest' whole 0 in
        if (wholeDigits + fractionDigits =? 0)%nat then nan
        else decimalToFloat negative m
               (readExponent rest'' - Z.of_nat fractionDigits)%Z
    | _ =>
        if (wholeDigits =? 0)%nat then nan
        else decimalToFloat negative whole (readExponent rest)
    end.

(** [parseFloat(s)] on a string: leading white space is skipped, then the
    longest prefix that is a signed decimal literal is read. *)
Definition parseString (s : string) : float :=
  match skipWhiteSpace s with
  | String "-" rest => readUnsigned true rest
  | String "+" rest => readUnsigned false rest
  | trimmed => readUnsigned false trimmed
  end.

(** [parseFloat(v)], which parses [String(v)]: a number prints to a string
    that reads back as itself ([-0] prints as ["0"]); an array prints its
    elements with commas between, so that only the first one is read, as
    nothing if it is [null] or [undefined]; [true], [false], [null],
    [undefined] and ["[object Object]"] start no number. *)
Fixpoint parseFloat (v : value) : float :=
  match v with
  | VStr s => parseString s
  | VNum n => if is_zero n then zero else n
  | VArr (x :: _) =>
      match x with
      | VUndefined | VNull => nan
      | _ => parseFloat x
      end
  | _ => nan
  end.

(** What an upstream error carries in [error.response]: the status code of
    the HTTP response of the Notion API, a number that [res.status] accepts,
    and its payload. *)
Record ErrResponse : Type := mkErrResponse {
  status : nat;
  data : value
}.

(** What a [throw] can carry inside the handlers: the rejection of an axios
    call, whose [response] is absent on a network failure, or a [TypeError]
    raised by reading a property of [undefined]. *)
Inductive exn : Type :=
| AxiosError (response : option ErrResponse)
| TypeError (reading : string).

(** [error.response] *)
Definition response (e : exn) : option ErrResponse :=
  match e with
  | AxiosError r => r
  | TypeError _ => None
  end.

(** [error.response?.data] *)
Definition responseData (e : exn) : value :=
  match response e with
  | Some r => data r
  | None => VUndefined
  end.

(** [error.response?.status || 500] *)
Definition responseStatus (e : exn) : nat :=
  match response e with
  | Some r => if (status r =? 0)%nat then 500%nat else status r
  | None => 500%nat
  end.

Inductive result (A : Type) : Type :=
| Ok (a : A)
| Throw (e : exn).

Arguments Ok {A} a.
Arguments Throw {A} e.

Definition bind {A B : Type} (m : result A) (k : A -> result B) : result B :=
  match m with
  | Ok a => k a
  | Throw e => Throw e
  end.

End JS.

Import JS.

Notation "x <- m ;; k" := (JS.bind m (fun x => k))
  (at level 61, m at next level, right associativity).

(** ** The Notion page schema read by the gateway *)

Module Notion.

(** [{ text: { content } }] inside a [title] or [rich_text] array. *)
Record TextObject : Type := mkText { content : option string }.

Record RichText : Type := mkRichText { text : option TextObject }.

Record NumberProperty : Type := mkNumber { number : option float }.

Record TitleProperty : Type := mkTitle {
  title : option (list (option RichText))
}.

Record RichTextProperty : Type := mkRichTextProp {
  rich_text : option (list (option RichText))
}.

Record DateValue : Type := mkDate { start : option string }.

Record DateProperty : Type := mkDateProp { date : option DateValue }.

Record SelectOption : Type := mkOption { name : option string }.

Record SelectProperty : Type := mkSelect { select : option SelectOption }.

(** The property bag: the five properties the gateway reads, each of which
    may be absent. *)
Record Properties : Type := mkProperties {
  Amount : option NumberProperty;
  Name : option TitleProperty;
  ProductName : option RichTextProperty;
  OrderDate : option DateProperty;
  Select : option SelectProperty
}.

(** An external record. *)
Record Page : Type := mkPage {
  id : option string;
  properties : option Properties
}.

End Notion.

(** ** GET /proxy/notion: normalisation and aggregation *)

Record NormalizedSale : Type := mkSale {
  amount : float;
  customerName : string;
  productName : string;
  date : option string;
  paymentMethod : string
}.

Record MonthlyBucket : Type := mkMonthly {
  mb_name : string;
  mb_revenue : float;
  mb_orders : Z;
  mb_customers : Z
}.

Record ProductBucket : Type := mkProduct {
  pb_name : string;
  pb_value : float;
  pb_color : string
}.

Record OrderEntry : Type := mkOrder {
  oe_id : string;
  oe_customer : string;
  oe_amount : string;
  oe_product : string;
  oe_date : string;
  oe_paymentMethod : string;
  oe_status : string
}.

(** [items[0]?.text?.content] *)
Definition firstContent (items : list (option Notion.RichText)) : option string :=
  match items with
  | Some item :: _ =>
      match Notion.text item with
      | Some t => Notion.content t
      | None => None
      end
  | _ => None
  end.

(** [prop?.title[0]?.text?.content] and [prop?.rich_text[0]?.text?.content]:
    the chain stops with [undefined] on an absent property; past the [?.]
    the array is indexed unguarded, so an absent array raises. *)
Definition chainContent (array : option (option (list (option Notion.RichText))))
  : result (option string) :=
  match array with
  | None => Ok None
  | Some None => Throw (TypeError "0")
  | Some (Some items) => Ok (firstContent items)
  end.

(** The first five statements of the [rows.forEach] callback. *)
Definition normalize (page : Notion.Page) : result NormalizedSale :=
  match Notion.properties page with
  | None => Throw (TypeError "Amount")
  | Some props =>
      let amount :=
        orNum (match Notion.Amount props with
               | Some p => Notion.number p
               | None => None
               end) 0 in
      content <- chainContent (option_map Notion.title (Notion.Name props)) ;;
      let customerName := orStr content "Unknown" in
      content' <- chainContent
                    (option_map Notion.rich_text (Notion.ProductName props)) ;;
      let productName := orStr content' "Unknown" in
      let date :=
        orNull (match Notion.OrderDate props with
                | Some p =>
                    match Notion.date p with
                    | Some d => Notion.start d
                    | None => None
                    end
                | None => None
                end) in
      let paymentMethod :=
        orStr (match Notion.Select props with
               | Some p =>
                   match Notion.select p with
                   | Some o => Notion.name o
                   | None => None
                   end
               | None => None
               end) "Unknown" in
      Ok (mkSale amount customerName productName date paymentMethod)
  end.

(** [existing = list.find(p); if (existing) existing.field += ...]: the object
    that [find] returns is the one held by the array, so the assignment
    rewrites the first element that satisfies [p], in place. *)
Fixpoint updateFirst {A : Type} (p : A -> bool) (f : A -> A) (l : list A)
  : list A :=
  match l with
  | [] => []
  | x :: rest => if p x then f x :: rest else x :: updateFirst p f rest
  end.

Definition isMonth (month : string) (m : MonthlyBucket) : bool :=
  mb_name m =? month.

Definition isProduct (productName : string) (p : ProductBucket) : bool :=
  pb_name p =? productName.

(** [existing.revenue += amount; existing.orders += 1; existing.customers += 1] *)
Definition addSale (amount : float) (m : MonthlyBucket) : MonthlyBucket :=
  mkMonthly (mb_name m) (mb_revenue m + amount)%float (mb_orders m + 1)%Z
            (mb_customers m + 1)%Z.

(** [existingProduct.value += amount] *)
Definition addValue (amount : float) (p : ProductBucket) : ProductBucket :=
  mkProduct (pb_name p) (pb_value p + amount)%float (pb_color p).

(** The three collections built by one request. *)
Record Shaped : Type := mkShaped {
  monthly : list MonthlyBucket;
  products : list ProductBucket;
  orders : list OrderEntry
}.

(** [response.data] of the database query. *)
Record QueryData : Type := mkQuery { results : option (list Notion.Page) }.

(** What a handler hands to [res.status(...).json(...)]. *)
Record Response (B : Type) : Type := mkResponse {
  res_status : nat;
  res_body : B
}.

Arguments mkResponse {B} res_status res_body.
Arguments res_status {B} r.
Arguments res_body {B} r.

Inductive GetBody : Type :=
| GetSuccess (success : bool) (monthly : list MonthlyBucket)
    (products : list ProductBucket) (orders : list OrderEntry)
| GetFailure (success : bool) (message : string) (error : value).

Section Aggregator.

(** [new Date(d).toLocaleString("default", { month: "short", year: "numeric" })] *)
Variable monthLabel : string -> string.
(** [new Date(d).toLocaleDateString("en-PH", { year, month, day })] *)
Variable formatDate : string -> string.
(** [n.toLocaleString("en-PH", { style: "currency", currency: "PHP" })] *)
Variable formatCurrency : float -> string.
(** ["#" + Math.floor(Math.random() * 16777215).toString(16).padStart(6, "0")]
    at the n-th draw of the request; one colour is drawn per product bucket
    pushed, so the draw number is the length of [products]. *)
Variable randomColor : nat -> string.

(** The block under [// Monthly data]. *)
Definition monthlyStep (monthly : list MonthlyBucket) (sale : NormalizedSale)
  : list MonthlyBucket :=
  match orNull (date sale) with
  | Some d =>
      let month := monthLabel d in
      match find (isMonth month) monthly with
      | Some _ => updateFirst (isMonth month) (addSale (amount sale)) monthly
      | None => monthly ++ [mkMonthly month (amount sale) 1 1]
      end
  | None => monthly
  end.

(** The block under [// Product data]. *)
Definition productStep (products : list ProductBucket) (sale : NormalizedSale)
  : list ProductBucket :=
  match find (isProduct (productName sale)) products with
  | Some _ =>
      updateFirst (isProduct (productName sale)) (addValue (amount sale))
                  products
  | None =>
      products ++ [mkProduct (productName sale) (amount sale)
                             (randomColor (List.length products))]
  end.

(** The object pushed under [// Orders]. *)
Definition orderEntry (index : nat) (page : Notion.Page) (sale : NormalizedSale)
  : OrderEntry :=
  mkOrder
    (orStr (Notion.id page) ("#" ++ padStart 4 "0" (toString (index + 1))))
    (customerName sale)
    (formatCurrency (amount sale))
    (productName sale)
    (match orNull (date sale) with
     | Some d => formatDate d
     | None => "-"
     end)
    (paymentMethod sale)
    "completed".

Definition orderStep (orders : list OrderEntry) (index : nat)
  (page : Notion.Page) (sale : NormalizedSale) : list OrderEntry :=
  if (List.length orders <? 10)%nat
  then orders ++ [orderEntry index page sale]
  else orders.

(** The aggregation part of the callback, once the five fields are read. *)
Definition aggregateStep (acc : Shaped) (index : nat) (page : Notion.Page)
  (sale : NormalizedSale) : Shaped :=
  mkShaped (monthlyStep (monthly acc) sale)
           (productStep (products acc) sale)
           (orderStep (orders acc) index page sale).

(** The callback of [rows.forEach((page, index) => ...)]. *)
Definition callback (acc : Shaped) (page : Notion.Page) (index : nat)
  : result Shaped :=
  sale <- normalize page ;;
  Ok (aggregateStep acc index page sale).

(** [rows.forEach] from position [index] on; an exception of the callback
    leaves the loop. *)
Fixpoint forEach (rows : list Notion.Page) (index : nat) (acc : Shaped)
  : result Shaped :=
  match rows with
  | [] => Ok acc
  | page :: rest =>
      acc' <- callback acc page index ;;
      forEach rest (S index) acc'
  end.

(** [const monthly = []; const products = []; const orders = [];
    rows.forEach(...)] *)
Definition shape (rows : list Notion.Page) : result Shaped :=
  forEach rows 0 (mkShaped [] [] []).

(** The [try] block of GET /proxy/notion; [upstream] is the outcome of
    [await axios.post(.../query)]. *)
Definition fetchAndShape (upstream : result QueryData) : result Shaped :=
  response <- upstream ;;
  match results response with
  | Some rows => shape rows
  | None => Throw (TypeError "forEach")
  end.

(** GET /proxy/notion *)
Definition getNotion (upstream : result QueryData) : Response GetBody :=
  match fetchAndShape upstream with
  | Ok s => mkResponse 200 (GetSuccess true (monthly s) (products s) (orders s))
  | Throw error =>
      mkResponse 500
        (GetFailure false "Failed to fetch data from Notion"
                    (responseData error))
  end.

End Aggregator.

(** The normalised sales of a sequence of records, when every one of them
    normalises. *)
Fixpoint normalizeAll (rows : list Notion.Page) : result (list NormalizedSale) :=
  match rows with
  | [] => Ok []
  | page :: rest =>
      sale <- normalize page ;;
      sales <- normalizeAll rest ;;
      Ok (sale :: sales)
  end.

Definition sumZ (l : list Z) : Z := fold_right Z.add 0%Z l.

(** Number of elements of [l] that satisfy [p], as a JavaScript number. *)
Definition countZ {A : Type} (p : A -> bool) (l : list A) : Z :=
  Z.of_nat (List.length (filter p l)).

Definition hasDate (sale : NormalizedSale) : bool :=
  match date sale with
  | Some _ => true
  | None => false
  end.

(** The sale is dated and its month label is [month]. *)
Definition inMonth (monthLabel : string -> string) (month : string)
  (sale : NormalizedSale) : bool :=
  match date sale with
  | Some d => monthLabel d =? month
  | None => false
  end.

Definition ofProduct (product : string) (sale : NormalizedSale) : bool :=
  productName sale =? product.

(** ** POST /proxy/notion *)

(** The five fields of a parsed [req.body]; an absent field is
    [VUndefined]. *)
Record CreateBody : Type := mkBody {
  b_amount : value;
  b_customerName : value;
  b_productName : value;
  b_date : value;
  b_paymentMethod : value
}.

(** The page sent to the Notion API: [parent.database_id] and the payload of
    the properties Amount, Name, Product Name, Order Date and Select. *)
Record NotionData : Type := mkNotionData {
  nd_database_id : string;
  nd_number : float;
  nd_title_content : value;
  nd_rich_text_content : value;
  nd_date_start : value;
  nd_select_name : value
}.

Inductive PostBody : Type :=
| PostSuccess (status message : string) (pageId : value)
| PostError (status : string) (message : value) (details : value).

(** [v.k], which raises on a nullish [v]. *)
Definition member (v : value) (k : string) : result value :=
  match v with
  | VUndefined | VNull => Throw (TypeError k)
  | _ => Ok (optGet v k)
  end.

Section CreateSale.

Variable NOTION_DATABASE_ID : string.
(** [await axios.post("https://api.notion.com/v1/pages", notionData, ...)]:
    the [response.data] of the Notion API, or its rejection. *)
Variable axiosPost : NotionData -> result value.

(** [!amount || !customerName || !productName || !date || !paymentMethod] *)
Definition missingFields (body : CreateBody) : bool :=
  negb (truthy (b_amount body)) || negb (truthy (b_customerName body))
  || negb (truthy (b_productName body)) || negb (truthy (b_date body))
  || negb (truthy (b_paymentMethod body)).

Definition notionData (body : CreateBody) : NotionData :=
  mkNotionData NOTION_DATABASE_ID (parseFloat (b_amount body))
               (b_customerName body) (b_productName body) (b_date body)
               (b_paymentMethod body).

(** POST /proxy/notion: the outbound calls made, in order, and the response.
    [body] is [req.body], [None] when no JSON body was parsed: the
    destructuring at the top of the [try] block then raises, and the [catch]
    answers.  The status of an upstream answer is the status code of an HTTP
    response, which [res.status] accepts. *)
Definition postNotion (body : option CreateBody)
  : list NotionData * Response PostBody :=
  match body with
  | None =>
      ([], mkResponse (responseStatus (TypeError "amount"))
             (PostError "error"
                (JS.or (optGet (responseData (TypeError "amount")) "message")
                       (VStr "Failed to create page in Notion"))
                (responseData (TypeError "amount"))))
  | Some fields =>
      if missingFields fields
      then ([], mkResponse 400
                  (PostError "error" (VStr "Missing required fields")
                             VUndefined))
      else
        let sent := notionData fields in
        match (response <- axiosPost sent ;; member response "id") with
        | Ok pageId =>
            ([sent], mkResponse 200
                       (PostSuccess "success"
                                    "Data successfully saved to Notion" pageId))
        | Throw error =>
            ([sent], mkResponse (responseStatus error)
                       (PostError "error"
                          (JS.or (optGet (responseData error) "message")
                                 (VStr "Failed to create page in Notion"))
                          (responseData error)))
        end
  end.

End CreateSale.

(** ** Dashboard.jsx: the optimistic update *)

Record FormData : Type := mkForm {
  fd_amount : string;
  fd_customerName : string;
  fd_productName : string;
  fd_date : string;
  fd_paymentMethod : string
}.

(** The three pieces of component state the update touches. *)
Record Dashboard : Type := mkDashboard {
  monthlyData : list MonthlyBucket;
  productData : list ProductBucket;
  recentOrders : list OrderEntry
}.

Definition colors : list string :=
  ["#3B82F6"; "#10B981"; "#F59E0B"; "#EF4444"; "#8B5CF6"; "#EC4899"].

Section OptimisticUpdate.

Variable monthLabel : string -> string.
Variable formatDate : string -> string.
Variable formatCurrency : float -> string.
(** [Date.now()] at the submission. *)
Variable now : nat.

(** The updater passed to [setMonthlyData]; [recentOrders] is the state the
    closure captured. *)
Definition setMonthlyData (recentOrders : list OrderEntry) (month : string)
  (customerName : string) (amountNum : float) (prev : list MonthlyBucket)
  : list MonthlyBucket :=
  match find (fun item => mb_name item =? month) prev with
  | Some _ =>
      let existingCustomer :=
        existsb (fun order => oe_customer order =? customerName) recentOrders in
      map (fun item =>
             if mb_name item =? month
             then mkMonthly (mb_name item) (mb_revenue item + amountNum)%float
                            (mb_orders item + 1)%Z
                            (if existingCustomer then mb_customers item
                             else (mb_customers item + 1)%Z)
             else item) prev
  | None => prev ++ [mkMonthly month amountNum 1 1]
  end.

(** The updater passed to [setProductData]. *)
Definition setProductData (productName : string) (amountNum : float)
  (prev : list ProductBucket) : list ProductBucket :=
  match find (fun item => pb_name item =? productName) prev with
  | Some _ =>
      map (fun item =>
             if pb_name item =? productName
             then mkProduct (pb_name item) (pb_value item + amountNum)%float
                            (pb_color item)
             else item) prev
  | None =>
      let newColor :=
        nth (List.length prev mod List.length colors) colors "" in
      prev ++ [mkProduct productName amountNum newColor]
  end.

(** The updater passed to [setRecentOrders]. *)
Definition setRecentOrders (form : FormData) (amountNum : float)
  (prev : list OrderEntry) : list OrderEntry :=
  mkOrder ("new-" ++ toString now) (fd_customerName form)
          (formatCurrency amountNum) (fd_productName form)
          (formatDate (fd_date form)) (fd_paymentMethod form) "completed"
  :: firstn 9 prev.

(** [handleFormSubmit(formData)] on the state [st]. *)
Definition handleFormSubmit (st : Dashboard) (formData : FormData)
  : Dashboard :=
  let amountNum := parseFloat (VStr (fd_amount formData)) in
  let month := monthLabel (fd_date formData) in
  mkDashboard
    (setMonthlyData (recentOrders st) month (fd_customerName formData)
                    amountNum (monthlyData st))
    (setProductData (fd_productName formData) amountNum (productData st))
    (setRecentOrders formData amountNum (recentOrders st)).

End OptimisticUpdate.

(** The submitted sale as the aggregator meets it: the amount that
    [handleFormSubmit] and the gateway both get from [parseFloat], the date
    kept when it is not empty. *)
Definition saleOfForm (formData : FormData) : NormalizedSale :=
  mkSale (parseFloat (VStr (fd_amount formData))) (fd_customerName formData)
         (fd_productName formData) (orNull (Some (fd_date formData)))
         (fd_paymentMethod formData).

(** ** A sample runtime

    English month labels in the UTC time zone, to evaluate the model on
    concrete inputs. *)

Definition monthName (mm : string) : string :=
  if mm =? "01" then "Jan" else if mm =? "02" then "Feb"
  else if mm =? "03" then "Mar" else if mm =? "04" then "Apr"
  else if mm =? "05" then "May" else if mm =? "06" then "Jun"
  else if mm =? "07" then "Jul" else if mm =? "08" then "Aug"
  else if mm =? "09" then "Sep" else if mm =? "10" then "Oct"
  else if mm =? "11" then "Nov" else if mm =? "12" then "Dec"
  else "Invalid Date".

(** ["2025-01-05"] becomes ["Jan 2025"]. *)
Definition sampleMonthLabel (d : string) : string :=
  monthName (substring 5 2 d) ++ " " ++ substring 0 4 d.

(** ["2025-01-05"] becomes ["Jan 05, 2025"]. *)
Definition sampleDate (d : string) : string :=
  monthName (substring 5 2 d) ++ " " ++ substring 8 2 d ++ ", "
  ++ substring 0 4 d.

(** The hundredths in the magnitude of a finite number, rounded down. *)
Definition hundredths (x : float) : Z :=
  match Prim2SF (abs x) with
  | S754_finite _ m e =>
      match e with
      | Zneg k => (Zpos m * 100 / Zpos (2 ^ k))%Z
      | _ => (Zpos m * 2 ^ e * 100)%Z
      end
  | _ => 0%Z
  end.

(** [100.5] becomes ["PHP 100.50"]. *)
Definition sampleCurrency (x : float) : string :=
  (if (x <? 0)%float then "-PHP " else "PHP ")
  ++ NilEmpty.string_of_uint (N.to_uint (Z.to_N (hundredths x / 100))) ++ "."
  ++ padStart 2 "0" (toString (Z.to_nat (hundredths x mod 100))).

Definition sampleColor (n : nat) : string :=
  "#" ++ padStart 6 "0" (toString n).

(** A well-formed Notion page holding one sale. *)
Definition samplePage (pageId : string) (amount : float)
  (customer product day method : string) : Notion.Page :=
  Notion.mkPage (Some pageId)
    (Some (Notion.mkProperties
             (Some (Notion.mkNumber (Some amount)))
             (Some (Notion.mkTitle
                      (Some [Some (Notion.mkRichText
                                     (Some (Notion.mkText (Some customer))))])))
             (Some (Notion.mkRichTextProp
                      (Some [Some (Notion.mkRichText
                                     (Some (Notion.mkText (Some product))))])))
             (Some (Notion.mkDateProp (Some (Notion.mkDate (Some day)))))
             (Some (Notion.mkSelect (Some (Notion.mkOption (Some method))))))).

(** ** Vocabulary of the statements *)

(** The array of a [title] or [rich_text] property is there whenever the
    property is. *)
Definition hasArray {A : Type} (array : option (option A)) : bool :=
  match array with
  | Some None => false
  | _ => true
  end.

(** The shape the Notion API gives a page: a property bag, and an array in
    each of the Name and Product Name properties that are present. *)
Definition wellShaped (page : Notion.Page) : bool :=
  match Notion.properties page with
  | Some props =>
      hasArray (option_map Notion.title (Notion.Name props))
      && hasArray (option_map Notion.rich_text (Notion.ProductName props))
  | None => false
  end.

(** [a?.b] on typed optional fields. *)
Definition andThen {A B : Type} (a : option A) (f : A -> option B) : option B :=
  match a with
  | Some x => f x
  | None => None
  end.

(** The raw values that the normalizer reads, [None] when any object on the
    way is absent. *)
Definition rawAmount (page : Notion.Page) : option float :=
  andThen (andThen (Notion.properties page) Notion.Amount) Notion.number.

Definition rawCustomerName (page : Notion.Page) : option string :=
  andThen (andThen (andThen (Notion.properties page) Notion.Name) Notion.title)
          firstContent.

Definition rawProductName (page : Notion.Page) : option string :=
  andThen (andThen (andThen (Notion.properties page) Notion.ProductName)
                   Notion.rich_text)
          firstContent.

Definition rawDate (page : Notion.Page) : option string :=
  andThen (andThen (andThen (Notion.properties page) Notion.OrderDate)
                   Notion.date)
          Notion.start.

Definition rawPaymentMethod (page : Notion.Page) : option string :=
  andThen (andThen (andThen (Notion.properties page) Notion.Select)
                   Notion.select)
          Notion.name.

(** The orders that [forEach] pushes from position [index] on. *)
Fixpoint ordersFrom (formatDate : string -> string)
  (formatCurrency : float -> string) (rows : list Notion.Page)
  (sales : list NormalizedSale) (index : nat) (orders : list OrderEntry)
  : list OrderEntry :=
  match rows, sales with
  | page :: rows', sale :: sales' =>
      ordersFrom formatDate formatCurrency rows' sales' (S index)
                 (orderStep formatDate formatCurrency orders index page sale)
  | _, _ => orders
  end.

(** Sum of the field [g] over the elements whose key is [k]. *)
Definition sumWhere {A : Type} (key : A -> string) (k : string) (g : A -> Z)
  (l : list A) : Z :=
  sumZ (map g (filter (fun x => key x =? k) l)).

(** The ways the [try] block of GET /proxy/notion can fail: the query is
    rejected, its answer has no [results], or a row is not well shaped. *)
Definition fetchFails (upstream : result QueryData) : Prop :=
  match upstream with
  | Throw _ => True
  | Ok response =>
      match results response with
      | Some rows => Exists (fun page => wellShaped page = false) rows
      | None => True
      end
  end.

(** [error.response?.data] of what the failing [try] block threw: the payload
    of the upstream answer when the query was rejected with one. *)
Definition upstreamPayload (upstream : result QueryData) : value :=
  match upstream with
  | Throw error => responseData error
  | Ok _ => VUndefined
  end.

(** A Name property without its [title] array. *)
Definition pageWithoutTitle : Notion.Page :=
  Notion.mkPage (Some "p1")
    (Some (Notion.mkProperties None (Some (Notion.mkTitle None)) None None None)).

(** A page whose four text values are all the empty string. *)
Definition pageOfEmptyStrings : Notion.Page :=
  samplePage "p2" 0 "" "" "" "".

(** The order entries of the records from position [index] on, one per
    record, in input order. *)
Fixpoint entriesFrom (formatDate : string -> string)
  (formatCurrency : float -> string) (rows : list Notion.Page)
  (sales : list NormalizedSale) (index : nat) : list OrderEntry :=
  match rows, sales with
  | page :: rows', sale :: sales' =>
      orderEntry formatDate formatCurrency index page sale
      :: entriesFrom formatDate formatCurrency rows' sales' (S index)
  | _, _ => []
  end.

(** What one sale adds to the counter of the month [k] whose increment for
    an amount [a] is [inc a]. *)
Definition monthShare (monthLabel : string -> string) (k : string)
  (inc : float -> Z) (sale : NormalizedSale) : Z :=
  match orNull (date sale) with
  | Some d => if monthLabel d =? k then inc (amount sale) else 0%Z
  | None => 0%Z
  end.

(** Three records of January and February 2025, the third without
    identifier or date. *)
Definition sampleRows : list Notion.Page :=
  [samplePage "a1" 100 "Ann" "Widget" "2025-01-05" "Cash";
   samplePage "b2" 50 "Bob" "Widget" "2025-01-20" "GCash";
   samplePage "c3" 75 "Cy" "Gadget" "2025-02-01" "Cash";
   Notion.mkPage None
     (Some (Notion.mkProperties (Some (Notion.mkNumber (Some 20%float)))
                                None None None None))].

Definition sampleSales : list NormalizedSale :=
  [mkSale 100 "Ann" "Widget" (Some "2025-01-05") "Cash";
   mkSale 50 "Bob" "Widget" (Some "2025-01-20") "GCash";
   mkSale 75 "Cy" "Gadget" (Some "2025-02-01") "Cash";
   mkSale 20 "Unknown" "Unknown" None "Unknown"].

(** The date of the sale is [null] or a non-empty string. *)
Definition dateOk (sale : NormalizedSale) : Prop :=
  orNull (date sale) = date sale.

(** The answer to a request that fails the validation, with no outbound
    call. *)
Definition rejection : list NotionData * Response PostBody :=
  ([], mkResponse 400
         (PostError "error" (VStr "Missing required fields") VUndefined)).



(** A Notion API that accepts every page and names it ["page-1"]. *)
Definition acceptingNotion (sent : NotionData) : result value :=
  Ok (VObj [("id", VStr "page-1")]).

(** A complete request whose amount is the string ["0"], as a form sends it. *)
Definition bodyOfZeroString : CreateBody :=
  mkBody (VStr "0") (VStr "Ann") (VStr "Widget") (VStr "2025-01-05")
         (VStr "Cash").


(** A request whose amount is the number [0]. *)
Definition bodyOfZero : CreateBody :=
  mkBody (VNum 0) (VStr "Ann") (VStr "Widget") (VStr "2025-01-05")
         (VStr "Cash").

(** A dashboard showing one sale of January 2025, made to Ann. *)
Definition dashboardOfAnn : Dashboard :=
  mkDashboard
    [mkMonthly "Jan 2025" 100 1 1]
    [mkProduct "Widget" 100 "#3B82F6"]
    [mkOrder "a1" "Ann" "PHP 100.00" "Widget" "Jan 05, 2025" "Cash"
             "completed"].

(** A second sale of January 2025. *)
Definition formOf (customer : string) : FormData :=
  mkForm "50" customer "Widget" "2025-01-20" "Cash".

(** A sale whose amount is typed with a leading space and a fraction. *)
Definition formOfDecimal : FormData :=
  mkForm " 12.5" "Bob" "Widget" "2025-01-20" "Cash".

(** The Notion API answers 404 to the query. *)
Definition notFound : result QueryData :=
  Throw (AxiosError
           (Some (mkErrResponse 404
                    (VObj [("message", VStr "Could not find database")])))).

(** ** Start-up configuration of the gateway *)

(** [id.replace(/-/g, '')] *)
Fixpoint removeDashes (s : string) : string :=
  match s with
  | EmptyString => EmptyString
  | String c rest =>
      if (c =? "-")%char then removeDashes rest
      else String c (removeDashes rest)
  end.

(** [s.substring(n)] *)
Definition substringFrom (n : nat) (s : string) : string :=
  substring n (String.length s - n) s.

(** [formatNotionId(id)]; identifiers are ASCII, so that [length] counts
    characters. *)
Definition formatNotionId (id : option string) : option string :=
  match orNull id with
  | None => None
  | Some id' =>
      let cleanId := removeDashes id' in
      if negb (String.length cleanId =? 32)%nat then Some id'
      else Some (substring 0 8 cleanId ++ "-" ++ substring 8 4 cleanId ++ "-"
                 ++ substring 12 4 cleanId ++ "-" ++ substring 16 4 cleanId
                 ++ "-" ++ substringFrom 20 cleanId)%string
  end.

(** The constants of the module once the two checks of the environment have
    passed. *)
Record Config : Type := mkConfig {
  cfg_token : string;
  cfg_rawDatabaseId : option string;
  cfg_databaseId : string
}.

(** The top of [server.js]: read [NOTION_TOKEN] and [NOTION_DATABASE_ID] from
    the environment; [None] is [process.exit(1)]. *)
Definition startup (token rawDatabaseId : option string) : option Config :=
  match orNull token with
  | None => None
  | Some t =>
      match orNull (formatNotionId rawDatabaseId) with
      | None => None
      | Some databaseId => Some (mkConfig t rawDatabaseId databaseId)
      end
  end.

(** ** AddForm.jsx *)

(** [s.trimEnd()]: what is left of [s] is dropped as soon as it is white
    space to its end. *)
Fixpoint trimEnd (s : string) : string :=
  match s with
  | EmptyString => EmptyString
  | String c rest =>
      match skipWhiteSpace s with
      | EmptyString => EmptyString
      | _ => String c (trimEnd rest)
      end
  end.

(** [s.trim()] *)
Definition trim (s : string) : string := trimEnd (skipWhiteSpace s).

(** The [errors] object: the message of each field that failed. *)
Record FormErrors : Type := mkErrors {
  err_amount : option string;
  err_customerName : option string;
  err_productName : option string;
  err_date : option string;
  err_paymentMethod : option string
}.

(** [Object.keys(newErrors).length === 0] *)
Definition noErrors (e : FormErrors) : bool :=
  match err_amount e, err_customerName e, err_productName e, err_date e,
        err_paymentMethod e with
  | None, None, None, None, None => true
  | _, _, _, _, _ => false
  end.

(** The answer to a [fetch]: the response of the gateway, or a rejection
    with the message of its error. *)
Inductive Fetched (B : Type) : Type :=
| Responded (r : Response B)
| Unreachable (message : string).

Arguments Responded {B} r.
Arguments Unreachable {B} message.

(** [response.ok] *)
Definition ok {B : Type} (r : Response B) : bool :=
  (200 <=? res_status r)%nat && (res_status r <=? 299)%nat.

(** [JSON.stringify(formData)] as the gateway parses it back. *)
Definition bodyOfForm (formData : FormData) : CreateBody :=
  mkBody (VStr (fd_amount formData)) (VStr (fd_customerName formData))
         (VStr (fd_productName formData)) (VStr (fd_date formData))
         (VStr (fd_paymentMethod formData)).

Section AddForm.

(** [Number(s) <= 0], the comparison of the amount typed in the form. *)
Variable nonPositive : string -> bool.

(** [validateForm()]: the new [errors]. *)
Definition validateForm (formData : FormData) : FormErrors :=
  mkErrors
    (if (fd_amount formData =? "") || nonPositive (fd_amount formData)
     then Some "Amount is required and must be greater than 0" else None)
    (if trim (fd_customerName formData) =? ""
     then Some "Customer name is required" else None)
    (if trim (fd_productName formData) =? ""
     then Some "Product name is required" else None)
    (if fd_date formData =? "" then Some "Date is required" else None)
    (if fd_paymentMethod formData =? ""
     then Some "Payment method is required" else None).

End AddForm.

(** ** Dashboard.jsx: metrics, loading and the cache *)

(** [list.reduce((sum, item) => sum + item.field, 0)] *)
Definition total {A : Type} (field : A -> Z) (l : list A) : Z :=
  fold_left (fun sum item => (sum + field item)%Z) l 0%Z.

(** [list.reduce((sum, x) => sum + x, 0)] on numbers. *)
Definition sumFloat (l : list float) : float :=
  fold_left (fun sum x => (sum + x)%float) l 0%float.

Definition totalRevenue (currentData : list MonthlyBucket) : float :=
  sumFloat (map mb_revenue currentData).

Definition totalOrders (currentData : list MonthlyBucket) : Z :=
  total mb_orders currentData.

Definition totalCustomers (currentData : list MonthlyBucket) : Z :=
  total mb_customers currentData.

(** The value of the key ['cachedData'] of [localStorage], parsed. *)
Record CachedData : Type := mkCached {
  c_monthly : option (list MonthlyBucket);
  c_products : option (list ProductBucket);
  c_orders : option (list OrderEntry);
  c_timestamp : Z
}.

(** The state of the dashboard that loading touches. *)
Record View : Type := mkView {
  v_data : Dashboard;
  v_isLoading : bool;
  v_error : option string
}.

(** What the component returns: the spinner while loading, else the error
    screen with its Retry button when [error] is truthy, else the
    dashboard. *)
Inductive Screen : Type :=
| Loading
| ErrorScreen (error : string)
| Main (data : Dashboard).

Definition render (view : View) : Screen :=
  if v_isLoading view then Loading
  else
    match orNull (v_error view) with
    | Some error => ErrorScreen error
    | None => Main (v_data view)
    end.

(** [data.success], [data.message], [data.monthly], ... of a JSON body. *)
Definition bodySuccess (b : GetBody) : bool :=
  match b with
  | GetSuccess success _ _ _ => success
  | GetFailure success _ _ => success
  end.

Definition bodyMessage (b : GetBody) : option string :=
  match b with
  | GetSuccess _ _ _ _ => None
  | GetFailure _ message _ => Some message
  end.

Definition bodyMonthly (b : GetBody) : option (list MonthlyBucket) :=
  match b with
  | GetSuccess _ m _ _ => Some m
  | GetFailure _ _ _ => None
  end.

Definition bodyProducts (b : GetBody) : option (list ProductBucket) :=
  match b with
  | GetSuccess _ _ p _ => Some p
  | GetFailure _ _ _ => None
  end.

Definition bodyOrders (b : GetBody) : option (list OrderEntry) :=
  match b with
  | GetSuccess _ _ _ o => Some o
  | GetFailure _ _ _ => None
  end.

(** [list || []] *)
Definition orEmpty {A : Type} (l : option (list A)) : list A :=
  match l with
  | Some x => x
  | None => []
  end.

(** What the [try] block of [fetchData] throws, if anything: the message of
    the error; [statusText] is the reason phrase of the answer. *)
Definition thrownByFetch (fetched : Fetched GetBody) (statusText : string)
  : option string :=
  match fetched with
  | Responded res =>
      if negb (ok res)
      then Some ("Server returned " ++ toString (res_status res) ++ ": "
                 ++ statusText)%string
      else if negb (bodySuccess (res_body res))
           then Some (orStr (bodyMessage (res_body res)) "Failed to fetch data")
           else None
  | Unreachable message => Some message
  end.

(** [fetchData()] of the effect run at mount: [nowMs] is
    [new Date().getTime()], [storage] the cache before; the view and the
    cache after. *)
Definition fetchData (fetched : Fetched GetBody) (statusText : string)
  (nowMs : Z) (storage : option CachedData) (view : View)
  : View * option CachedData :=
  match thrownByFetch fetched statusText, fetched with
  | None, Responded res =>
      let data := res_body res in
      (mkView (mkDashboard (orEmpty (bodyMonthly data))
                           (orEmpty (bodyProducts data))
                           (orEmpty (bodyOrders data)))
              false None,
       Some (mkCached (bodyMonthly data) (bodyProducts data) (bodyOrders data)
                      nowMs))
  | thrown, _ =>
      let message := match thrown with Some m => m | None => "" end in
      let data :=
        match storage with
        | Some parsedData =>
            if (nowMs - c_timestamp parsedData <? 3600000)%Z
            then mkDashboard (orEmpty (c_monthly parsedData))
                             (orEmpty (c_products parsedData))
                             (orEmpty (c_orders parsedData))
            else v_data view
        | None => v_data view
        end in
      (mkView data false (Some message), storage)
  end.

(** [refreshData()]: no look at [res.ok], no cache. *)
Definition refreshData (fetched : Fetched GetBody) (view : View) : View :=
  match fetched with
  | Responded res =>
      let data := res_body res in
      if bodySuccess data
      then mkView (mkDashboard (orEmpty (bodyMonthly data))
                               (orEmpty (bodyProducts data))
                               (orEmpty (bodyOrders data)))
                  false None
      else mkView (v_data view) false None
  | Unreachable _ => mkView (v_data view) false (Some "Failed to refresh data")
  end.

(** ** More vocabulary *)

(** The elements of [l] in the order of their first occurrence. *)
Fixpoint firstSeen (seen l : list string) : list string :=
  match l with
  | [] => []
  | x :: rest =>
      if existsb (String.eqb x) seen then firstSeen seen rest
      else x :: firstSeen (seen ++ [x]) rest
  end.

(** The month labels of the dated sales, in input order. *)
Fixpoint monthLabels (monthLabel : string -> string)
  (sales : list NormalizedSale) : list string :=
  match sales with
  | [] => []
  | sale :: rest =>
      match orNull (date sale) with
      | Some d => monthLabel d :: monthLabels monthLabel rest
      | None => monthLabels monthLabel rest
      end
  end.

(** A form that passes [validateForm]. *)
Definition sampleForm : FormData :=
  mkForm "50" "Bob" "Widget" "2025-01-20" "Cash".

(** A comparison of the typed amount with 0; on a decimal numeral [Number]
    reads the number that [parseFloat] reads. *)
Definition sampleNonPositive (s : string) : bool :=
  (parseFloat (VStr s) <=? 0)%float.

(** [dashboardOfAnn] after Bob bought a Widget for 50, submitted at 17. *)
Definition dashboardAfterBob : Dashboard :=
  mkDashboard
    [mkMonthly "Jan 2025" 150 2 2]
    [mkProduct "Widget" 150 "#3B82F6"]
    [mkOrder "new-17" "Bob" "PHP 50.00" "Widget" "Jan 20, 2025" "Cash"
             "completed";
     mkOrder "a1" "Ann" "PHP 100.00" "Widget" "Jan 05, 2025" "Cash"
             "completed"].

(** The sale of a new product in a new month. *)
Definition formOfCy : FormData :=
  mkForm "30" "Cy" "Gadget" "2025-02-01" "GCash".

(** [dashboardOfAnn] after Cy bought a Gadget for 30, submitted at 17. *)
Definition dashboardAfterCy : Dashboard :=
  mkDashboard
    [mkMonthly "Jan 2025" 100 1 1; mkMonthly "Feb 2025" 30 1 1]
    [mkProduct "Widget" 100 "#3B82F6"; mkProduct "Gadget" 30 "#10B981"]
    [mkOrder "new-17" "Cy" "PHP 30.00" "Gadget" "Feb 01, 2025" "GCash"
             "completed";
     mkOrder "a1" "Ann" "PHP 100.00" "Widget" "Jan 05, 2025" "Cash"
             "completed"].

(** A dashboard that shows nothing yet. *)
Definition emptyView : View := mkView (mkDashboard [] [] []) true None.

(** The answer of the browser when the gateway is down. *)
Definition gatewayDown : Fetched GetBody := Unreachable "Failed to fetch".

(** A Notion API that rejects every page with 401. *)
Definition unauthorized (sent : NotionData) : result value :=
  Throw (AxiosError
           (Some (mkErrResponse 401
                    (VObj [("message", VStr "API token is invalid.")])))).

(** A Notion API that cannot be reached. *)
Definition unreachableNotion (sent : NotionData) : result value :=
  Throw (AxiosError None).

(** The sum of the numbers of [l] as the code accumulates it: the first
    one, then each of the others added in turn; [None] for no number. *)
Definition sumInOrder (l : list float) : option float :=
  match l with
  | [] => None
  | first :: others => Some (fold_left (fun sum x => (sum + x)%float) others first)
  end.

(** The integer that a finite number is, when it is one. *)
Definition integerOf (x : float) : Z :=
  match Prim2SF x with
  | S754_finite negative m e =>
      let magnitude :=
        match e with
        | Zneg k => (Zpos m / Zpos (2 ^ k))%Z
        | _ => (Zpos m * 2 ^ e)%Z
        end in
      if negative then (- magnitude)%Z else magnitude
  | _ => 0%Z
  end.

(** Four sales of two months and two products, one of 2^53. *)
Definition largeRows : list Notion.Page :=
  [samplePage "r1" 1 "Ann" "Widget" "2025-01-05" "Cash";
   samplePage "r2" 9007199254740992 "Bob" "Gadget" "2025-02-01" "Cash";
   samplePage "r3" 1 "Ann" "Widget" "2025-01-20" "Cash";
   samplePage "r4" 1 "Bob" "Gadget" "2025-02-10" "Cash"].

(** Three sales at decimal prices. *)
Definition decimalRows : list Notion.Page :=
  [samplePage "d1" 19.99 "Ann" "Widget" "2025-01-05" "Cash";
   samplePage "d2" 19.99 "Bob" "Gadget" "2025-02-01" "Cash";
   samplePage "d3" 0.2 "Ann" "Widget" "2025-01-20" "Cash"].

(** The buckets of an answer of GET /proxy/notion, none on a failure. *)
Definition monthlyOfAnswer (answer : Response GetBody) : list MonthlyBucket :=
  orEmpty (bodyMonthly (res_body answer)).

Definition productsOfAnswer (answer : Response GetBody) : list ProductBucket :=
  orEmpty (bodyProducts (res_body answer)).

(** The order entry that the code builds from the record at position
    [index], written from the raw values of the record. *)
Definition entryOfRecord (formatDate : string -> string)
  (formatCurrency : float -> string) (index : nat) (page : Notion.Page)
  : OrderEntry :=
  mkOrder
    (orStr (Notion.id page) ("#" ++ padStart 4 "0" (toString (index + 1))))
    (orStr (rawCustomerName page) "Unknown")
    (formatCurrency (orNum (rawAmount page) 0))
    (orStr (rawProductName page) "Unknown")
    (match orNull (rawDate page) with
     | Some d => formatDate d
     | None => "-"
     end)
    (orStr (rawPaymentMethod page) "Unknown")
    "completed".

(** The date of the sale is truthy and its month label is [k]: the test
    that the code makes. *)
Definition datedIn (monthLabel : string -> string) (k : string)
  (sale : NormalizedSale) : bool :=
  match orNull (date sale) with
  | Some d => monthLabel d =? k
  | None => false
  end.

(** One more number in a running sum that may not have started. *)
Definition accumulate (running : option float) (x : float) : option float :=
  match running with
  | Some sum => Some (sum + x)%float
  | None => Some x
  end.

(** The sales that a sequence of records normalises to, none when a record
    makes the normalizer raise. *)
Definition salesOf (rows : list Notion.Page) : list NormalizedSale :=
  match normalizeAll rows with
  | Ok sales => sales
  | Throw _ => []
  end.

(** * Properties *)

(** ** Record normalisation *)

Lemma orStr_nonempty (s : option string) (d : string) :
  d <> "" -> orStr s d <> "".
Proof.
  intros Hd. unfold orStr. destruct s as [x|]; [|exact Hd].
  destruct (x =? "") eqn:E; [exact Hd|].
  now apply String.eqb_neq in E.
Qed.

Lemma orStr_default (s : option string) (d : string) :
  orNull s = None -> orStr s d = d.
Proof.
  unfold orNull, orStr. destruct s as [x|]; [|reflexivity].
  now destruct (x =? "").
Qed.

Lemma orNull_idempotent (s : option string) : orNull (orNull s) = orNull s.
Proof.
  unfold orNull. destruct s as [x|]; [|reflexivity].
  destruct (x =? "") eqn:E; [reflexivity|now rewrite E].
Qed.

Lemma orNull_not_empty (s : option string) : orNull s <> Some "".
Proof.
  unfold orNull. destruct s as [x|]; [|discriminate].
  destruct (x =? "") eqn:E; [discriminate|].
  apply String.eqb_neq in E. congruence.
Qed.

Lemma chainContent_ok {A : Type} (prop : option A)
  (array : A -> option (list (option Notion.RichText))) :
  hasArray (option_map array prop) = true ->
  chainContent (option_map array prop) = Ok (andThen (andThen prop array) firstContent).
Proof.
  destruct prop as [p|]; simpl; [|reflexivity].
  destruct (array p); simpl; [reflexivity|discriminate].
Qed.

(** On a well-shaped page the normalizer is the table of defaults applied to
    the raw values. *)
Lemma normalize_wellShaped (page : Notion.Page) :
  wellShaped page = true ->
  normalize page =
    Ok (mkSale (orNum (rawAmount page) 0)
               (orStr (rawCustomerName page) "Unknown")
               (orStr (rawProductName page) "Unknown")
               (orNull (rawDate page))
               (orStr (rawPaymentMethod page) "Unknown")).
Proof.
  unfold wellShaped, normalize, rawAmount, rawCustomerName, rawProductName,
    rawDate, rawPaymentMethod.
  destruct (Notion.properties page) as [props|]; [|discriminate].
  intros H. apply andb_prop in H. destruct H as [Hn Hp].
  rewrite (chainContent_ok _ _ Hn). simpl.
  rewrite (chainContent_ok _ _ Hp). simpl.
  destruct (Notion.Amount props), (Notion.OrderDate props) as [d|],
    (Notion.Select props) as [o|]; simpl;
    try destruct (Notion.date d); try destruct (Notion.select o); reflexivity.
Qed.

(** The normalizer fails on every other page. *)
Lemma normalize_ok_wellShaped (page : Notion.Page) (sale : NormalizedSale) :
  normalize page = Ok sale -> wellShaped page = true.
Proof.
  unfold wellShaped, normalize.
  destruct (Notion.properties page) as [props|]; [|discriminate].
  destruct (Notion.Name props) as [[[t|]]|]; simpl; try discriminate;
    destruct (Notion.ProductName props) as [[[r|]]|]; simpl;
    try discriminate; reflexivity.
Qed.

Lemma normalize_not_wellShaped (page : Notion.Page) :
  wellShaped page = false ->
  exists reading, normalize page = Throw (TypeError reading).
Proof.
  intros W. destruct (normalize page) as [sale|[r|reading]] eqn:E.
  - rewrite (normalize_ok_wellShaped _ _ E) in W. discriminate.
  - exfalso. revert E. unfold normalize, chainContent.
    destruct (Notion.properties page) as [props|]; [|discriminate].
    destruct (Notion.Name props) as [[[t|]]|]; simpl; try discriminate;
      destruct (Notion.ProductName props) as [[[r'|]]|]; simpl; discriminate.
  - now exists reading.
Qed.

(** A normalised date is [null] or a non-empty string. *)
Lemma normalize_date (page : Notion.Page) (sale : NormalizedSale) :
  normalize page = Ok sale -> orNull (date sale) = date sale.
Proof.
  intros H. pose proof (normalize_ok_wellShaped _ _ H) as W.
  rewrite (normalize_wellShaped _ W) in H. injection H as <-. simpl.
  apply orNull_idempotent.
Qed.

(** C4, as stated, fails: the normalizer raises a TypeError on a page whose
    Name property has no [title] array, so it does not return a sale for
    every record. *)
Lemma normalize_raises_without_title :
  normalize pageWithoutTitle = Throw (TypeError "0")
  /\ ~ (forall page, exists sale, normalize page = Ok sale).
Proof.
  split; [reflexivity|].
  intros H. destruct (H pageWithoutTitle) as [sale Hs]. discriminate Hs.
Qed.

(** C4, amended: on every record that has a property bag and whose Name and
    Product Name properties, when present, carry their array, the normalizer
    returns a sale, whatever else is absent; no text field of that sale is
    empty and its date is [null] or a non-empty string. *)
Theorem normalize_total_on_well_shaped (page : Notion.Page) :
  wellShaped page = true ->
  exists sale,
    normalize page = Ok sale
    /\ customerName sale <> "" /\ productName sale <> ""
    /\ paymentMethod sale <> "" /\ date sale <> Some "".
Proof.
  intros W. eexists. split; [apply (normalize_wellShaped _ W)|]. simpl.
  repeat split; try (apply orStr_nonempty; discriminate).
  apply orNull_not_empty.
Qed.

Lemma normalize_total_on_well_shaped_witness :
  wellShaped (Notion.mkPage None (Some (Notion.mkProperties None None None None None))) = true
  /\ exists sale,
       normalize (Notion.mkPage None (Some (Notion.mkProperties None None None None None)))
       = Ok sale
       /\ customerName sale <> "" /\ productName sale <> ""
       /\ paymentMethod sale <> "" /\ date sale <> Some "".
Proof.
  split; [reflexivity|].
  apply (normalize_total_on_well_shaped
           (Notion.mkPage None (Some (Notion.mkProperties None None None None None)))).
  reflexivity.
Defined.

(** C10: when the normalizer returns a sale, a customer name, product name or
    payment method that is present as the empty string is replaced by
    "Unknown", and a date present as the empty string becomes [null]. *)
Theorem normalize_defaults_on_empty_string (page : Notion.Page) :
  wellShaped page = true ->
  exists sale,
    normalize page = Ok sale
    /\ (rawCustomerName page = Some "" -> customerName sale = "Unknown")
    /\ (rawProductName page = Some "" -> productName sale = "Unknown")
    /\ (rawPaymentMethod page = Some "" -> paymentMethod sale = "Unknown")
    /\ (rawDate page = Some "" -> date sale = None).
Proof.
  intros W. eexists. split; [apply (normalize_wellShaped _ W)|]. simpl.
  repeat split; intros ->; reflexivity.
Qed.

Lemma normalize_defaults_on_empty_string_witness :
  wellShaped pageOfEmptyStrings = true
  /\ exists sale,
       normalize pageOfEmptyStrings = Ok sale
       /\ (rawCustomerName pageOfEmptyStrings = Some "" -> customerName sale = "Unknown")
       /\ (rawProductName pageOfEmptyStrings = Some "" -> productName sale = "Unknown")
       /\ (rawPaymentMethod pageOfEmptyStrings = Some "" -> paymentMethod sale = "Unknown")
       /\ (rawDate pageOfEmptyStrings = Some "" -> date sale = None).
Proof.
  split; [reflexivity|].
  apply (normalize_defaults_on_empty_string pageOfEmptyStrings). reflexivity.
Defined.

(** ** Lists updated in place *)

Lemma sumZ_app (l1 l2 : list Z) : sumZ (l1 ++ l2) = (sumZ l1 + sumZ l2)%Z.
Proof. induction l1 as [|x l1 IH]; simpl; [reflexivity|rewrite IH; lia]. Qed.

Section UpdateFirst.

Context {A : Type}.
Variable key : A -> string.

Lemma updateFirst_keys (p : A -> bool) (f : A -> A) (l : list A) :
  (forall x, key (f x) = key x) ->
  map key (updateFirst p f l) = map key l.
Proof.
  intros Hf. induction l as [|x l IH]; simpl; [reflexivity|].
  destruct (p x); simpl; [now rewrite Hf|now rewrite IH].
Qed.

Lemma find_key_None (k : string) (l : list A) :
  find (fun x => key x =? k) l = None -> ~ In k (map key l).
Proof.
  induction l as [|x l IH]; simpl; [tauto|].
  destruct (key x =? k) eqn:E; [discriminate|].
  apply String.eqb_neq in E. intros H [He|Hi]; [congruence|now apply IH].
Qed.

Lemma updateFirst_sum (p : A -> bool) (f : A -> A) (g : A -> Z) (d : Z)
  (l : list A) :
  (forall x, g (f x) = (g x + d)%Z) ->
  find p l <> None ->
  sumZ (map g (updateFirst p f l)) = (sumZ (map g l) + d)%Z.
Proof.
  intros Hg. induction l as [|x l IH]; simpl; [congruence|].
  destruct (p x); simpl; intros H.
  - rewrite Hg. lia.
  - rewrite (IH H). lia.
Qed.

Lemma sumWhere_app (k : string) (g : A -> Z) (l : list A) (x : A) :
  sumWhere key k g (l ++ [x])
  = (sumWhere key k g l + (if (key x =? k)%string then g x else 0))%Z.
Proof.
  unfold sumWhere. rewrite filter_app, map_app, sumZ_app. simpl.
  destruct (key x =? k); simpl; lia.
Qed.

Lemma updateFirst_sumWhere (k k' : string) (f : A -> A) (g : A -> Z) (d : Z)
  (l : list A) :
  (forall x, key (f x) = key x) ->
  (forall x, g (f x) = (g x + d)%Z) ->
  find (fun x => key x =? k) l <> None ->
  sumWhere key k' g (updateFirst (fun x => key x =? k) f l)
  = (sumWhere key k' g l + (if (k =? k')%string then d else 0))%Z.
Proof.
  intros Hk Hg. unfold sumWhere.
  induction l as [|x l IH]; simpl; [congruence|].
  destruct (key x =? k) eqn:E; simpl; intros H.
  - apply String.eqb_eq in E. rewrite Hk, E.
    destruct (k =? k'); simpl; [rewrite Hg|]; lia.
  - destruct (key x =? k'); simpl; rewrite (IH H); lia.
Qed.

Lemma sumWhere_absent (k : string) (g : A -> Z) (l : list A) :
  ~ In k (map key l) -> sumWhere key k g l = 0%Z.
Proof.
  unfold sumWhere. induction l as [|x l IH]; simpl; [reflexivity|].
  intros H. destruct (key x =? k) eqn:E.
  - apply String.eqb_eq in E. tauto.
  - apply IH. tauto.
Qed.

(** With unique keys, the sum over the key of an element is its field. *)
Lemma sumWhere_unique (g : A -> Z) (l : list A) (b : A) :
  NoDup (map key l) -> In b l -> sumWhere key (key b) g l = g b.
Proof.
  induction l as [|x l IH]; simpl; [tauto|].
  intros Hnd. inversion Hnd as [|? ? Hx Hl]; subst. intros [->|Hb].
  - unfold sumWhere. simpl. rewrite String.eqb_refl. simpl.
    fold (sumWhere key (key b) g l). rewrite (sumWhere_absent _ _ _ Hx). lia.
  - unfold sumWhere. simpl. destruct (key x =? key b) eqn:E.
    + apply String.eqb_eq in E. exfalso. apply Hx. rewrite E.
      now apply in_map.
    + now apply IH.
Qed.

(** With unique keys, rewriting every element of key [k] is rewriting the
    first one. *)
Lemma map_if_updateFirst (k : string) (f : A -> A) (l : list A) :
  NoDup (map key l) ->
  map (fun x => if key x =? k then f x else x) l
  = updateFirst (fun x => key x =? k) f l.
Proof.
  induction l as [|x l IH]; simpl; [reflexivity|].
  intros Hnd. inversion Hnd as [|? ? Hx Hl]; subst.
  destruct (key x =? k) eqn:E.
  - f_equal. apply String.eqb_eq in E. subst k.
    clear IH Hnd Hl. induction l as [|y l IH]; simpl; [reflexivity|].
    simpl in Hx. destruct (key y =? key x) eqn:E.
    + apply String.eqb_eq in E. tauto.
    + f_equal. apply IH. tauto.
  - f_equal. now apply IH.
Qed.

Lemma find_updateFirst_same (k : string) (f : A -> A) (l : list A) :
  (forall x, key (f x) = key x) ->
  find (fun x => key x =? k) (updateFirst (fun x => key x =? k) f l)
  = option_map f (find (fun x => key x =? k) l).
Proof.
  intros Hk. induction l as [|x l IH]; simpl; [reflexivity|].
  destruct (key x =? k) eqn:E; simpl.
  - now rewrite Hk, E.
  - now rewrite E.
Qed.

Lemma find_updateFirst_other (k k' : string) (f : A -> A) (l : list A) :
  (forall x, key (f x) = key x) -> k <> k' ->
  find (fun x => key x =? k') (updateFirst (fun x => key x =? k) f l)
  = find (fun x => key x =? k') l.
Proof.
  intros Hk Hne. induction l as [|x l IH]; simpl; [reflexivity|].
  destruct (key x =? k) eqn:E; simpl.
  - rewrite Hk. apply String.eqb_eq in E.
    assert (E' : (key x =? k') = false) by (apply String.eqb_neq; congruence).
    now rewrite E'.
  - now rewrite IH.
Qed.

Lemma find_snoc (p : A -> bool) (l : list A) (x : A) :
  find p (l ++ [x])
  = match find p l with
    | Some y => Some y
    | None => if p x then Some x else None
    end.
Proof.
  induction l as [|y l IH]; simpl; [reflexivity|]. now destruct (p y).
Qed.

(** With unique keys, looking up the key of an element finds it. *)
Lemma find_unique (l : list A) (b : A) :
  NoDup (map key l) -> In b l -> find (fun x => key x =? key b) l = Some b.
Proof.
  induction l as [|x l IH]; simpl; [tauto|].
  intros Hnd. inversion Hnd as [|? ? Hx Hl]; subst. intros [->|Hb].
  - now rewrite String.eqb_refl.
  - destruct (key x =? key b) eqn:E; [|now apply IH].
    apply String.eqb_eq in E. exfalso. apply Hx. rewrite E. now apply in_map.
Qed.

End UpdateFirst.

(** ** Folding a step over the sales *)

Lemma fold_left_measure {S X : Type} (step : S -> X -> S) (mu : S -> Z)
  (w : X -> Z) :
  (forall s x, mu (step s x) = (mu s + w x)%Z) ->
  forall xs s, mu (fold_left step xs s) = (mu s + sumZ (map w xs))%Z.
Proof.
  intros Hstep. induction xs as [|x xs IH]; intros s; simpl; [lia|].
  rewrite IH, Hstep. lia.
Qed.

Lemma fold_left_track {S X T : Type} (step : S -> X -> S) (obs : S -> T)
  (upd : T -> X -> T) :
  (forall s x, obs (step s x) = upd (obs s) x) ->
  forall xs s, obs (fold_left step xs s) = fold_left upd xs (obs s).
Proof.
  intros Hstep. induction xs as [|x xs IH]; intros s; simpl; [reflexivity|].
  now rewrite IH, Hstep.
Qed.

(** A running sum over the elements that satisfy [p] is the sum in order of
    the elements kept by [filter p]. *)
Lemma accumulate_filter {X : Type} (p : X -> bool) (w : X -> float)
  (xs : list X) :
  forall running,
    fold_left (fun acc x => if p x then accumulate acc (w x) else acc) xs
              running
    = match running with
      | Some sum =>
          Some (fold_left (fun sum x => (sum + x)%float)
                          (map w (filter p xs)) sum)
      | None => sumInOrder (map w (filter p xs))
      end.
Proof.
  induction xs as [|x xs IH]; intros running; simpl.
  - now destruct running.
  - rewrite IH. destruct (p x); simpl; [|reflexivity]. now destruct running.
Qed.

Lemma fold_left_invariant {S X : Type} (step : S -> X -> S) (P : S -> Prop) :
  (forall s x, P s -> P (step s x)) ->
  forall xs s, P s -> P (fold_left step xs s).
Proof.
  intros Hstep. induction xs as [|x xs IH]; intros s Hs; simpl; auto.
Qed.

Lemma sumZ_filter {X : Type} (p : X -> bool) (w : X -> Z) (xs : list X) :
  sumZ (map (fun x => if p x then w x else 0%Z) xs) = sumZ (map w (filter p xs)).
Proof.
  induction xs as [|x xs IH]; simpl; [reflexivity|].
  destruct (p x); simpl; rewrite IH; lia.
Qed.

Lemma sumZ_ones {X : Type} (xs : list X) :
  sumZ (map (fun _ => 1%Z) xs) = Z.of_nat (List.length xs).
Proof.
  induction xs as [|x xs IH]; [reflexivity|].
  change (1 + sumZ (map (fun _ => 1) xs) = Z.of_nat (S (List.length xs)))%Z.
  rewrite IH. lia.
Qed.

Lemma NoDup_snoc {X : Type} (l : list X) (x : X) :
  NoDup l -> ~ In x l -> NoDup (l ++ [x]).
Proof.
  induction l as [|y l IH]; simpl; intros Hnd Hx.
  - constructor; [tauto|constructor].
  - inversion Hnd as [|? ? Hy Hl]; subst. constructor.
    + rewrite in_app_iff. simpl. intros [H|[H|[]]]; [tauto|]. subst. tauto.
    + apply IH; tauto.
Qed.

Lemma sumZ_map_ext {X : Type} (w w' : X -> Z) (P : X -> Prop) (xs : list X) :
  Forall P xs -> (forall x, P x -> w x = w' x) ->
  sumZ (map w xs) = sumZ (map w' xs).
Proof.
  intros HF Hw. induction HF as [|x xs Hx _ IH]; simpl; [reflexivity|].
  now rewrite IH, (Hw x Hx).
Qed.

(** ** The aggregator *)

Lemma normalizeAll_dateOk (rows : list Notion.Page) :
  forall sales, normalizeAll rows = Ok sales -> Forall dateOk sales.
Proof.
  induction rows as [|page rows IH]; simpl; intros sales H.
  - injection H as <-. constructor.
  - destruct (normalize page) as [sale|] eqn:En; simpl in H; [|discriminate].
    destruct (normalizeAll rows) as [rest|]; simpl in H; [|discriminate].
    injection H as <-. constructor; [exact (normalize_date _ _ En)|now apply IH].
Qed.

Lemma normalizeAll_length (rows : list Notion.Page) :
  forall sales, normalizeAll rows = Ok sales ->
  List.length sales = List.length rows.
Proof.
  induction rows as [|page rows IH]; simpl; intros sales H.
  - now injection H as <-.
  - destruct (normalize page); simpl in H; [|discriminate].
    destruct (normalizeAll rows) as [rest|]; simpl in H; [|discriminate].
    injection H as <-. simpl. now rewrite (IH rest).
Qed.

(** A sequence of well-shaped records normalises. *)
Lemma normalizeAll_wellShaped (rows : list Notion.Page) :
  Forall (fun page => wellShaped page = true) rows ->
  exists sales, normalizeAll rows = Ok sales.
Proof.
  induction 1 as [|page rows W _ [sales IH]]; simpl; [now exists []|].
  rewrite (normalize_wellShaped _ W), IH. simpl. now eexists.
Qed.

(** A record that is not well shaped makes the whole sequence fail, with a
    TypeError. *)
Lemma normalizeAll_raises (rows : list Notion.Page) :
  Exists (fun page => wellShaped page = false) rows ->
  exists reading, normalizeAll rows = Throw (TypeError reading).
Proof.
  induction rows as [|page rows IH]; intros H; [inversion H|]. simpl.
  destruct (wellShaped page) eqn:W.
  - rewrite (normalize_wellShaped _ W). simpl.
    inversion H as [? ? Hp|? ? Hr]; subst; [congruence|].
    destruct (IH Hr) as [reading ->]. now exists reading.
  - destruct (normalize_not_wellShaped _ W) as [reading ->].
    now exists reading.
Qed.

Section AggregatorProperties.

Variable monthLabel : string -> string.
Variable formatDate : string -> string.
Variable formatCurrency : float -> string.
Variable randomColor : nat -> string.

Local Notation monthlyOf sales :=
  (fold_left (monthlyStep monthLabel) sales []).
Local Notation productsOf sales :=
  (fold_left (productStep randomColor) sales []).
Local Notation GET upstream :=
  (getNotion monthLabel formatDate formatCurrency randomColor upstream).

(** When every record normalises, the loop runs to its end and builds the
    three collections one sale at a time. *)
Lemma forEach_normalized (rows : list Notion.Page) :
  forall sales index acc,
    normalizeAll rows = Ok sales ->
    forEach monthLabel formatDate formatCurrency randomColor rows index acc
    = Ok (mkShaped
            (fold_left (monthlyStep monthLabel) sales (monthly acc))
            (fold_left (productStep randomColor) sales (products acc))
            (ordersFrom formatDate formatCurrency rows sales index (orders acc))).
Proof.
  induction rows as [|page rows IH]; simpl; intros sales index acc H.
  - injection H as <-. now destruct acc.
  - unfold callback. destruct (normalize page) as [sale|]; simpl in *;
      [|discriminate].
    destruct (normalizeAll rows) as [rest|] eqn:Er; simpl in H; [|discriminate].
    injection H as <-. now rewrite (IH rest).
Qed.

Lemma getNotion_shaped (rows : list Notion.Page) (sales : list NormalizedSale) :
  normalizeAll rows = Ok sales ->
  GET (Ok (mkQuery (Some rows)))
  = mkResponse 200
      (GetSuccess true (monthlyOf sales) (productsOf sales)
         (ordersFrom formatDate formatCurrency rows sales 0 [])).
Proof.
  intros H. unfold getNotion, fetchAndShape, shape. simpl.
  now rewrite (forEach_normalized rows sales 0 (mkShaped [] [] []) H).
Qed.

(** *** Monthly buckets *)

Lemma find_isMonth (month : string) (l : list MonthlyBucket) :
  find (isMonth month) l = find (fun m => mb_name m =? month) l.
Proof. reflexivity. Qed.

Lemma monthlyStep_sumWhere (k : string) (g : MonthlyBucket -> Z)
  (inc : float -> Z) (l : list MonthlyBucket) (sale : NormalizedSale) :
  (forall a m, g (addSale a m) = (g m + inc a)%Z) ->
  (forall n a, g (mkMonthly n a 1 1) = inc a) ->
  sumWhere mb_name k g (monthlyStep monthLabel l sale)
  = (sumWhere mb_name k g l + monthShare monthLabel k inc sale)%Z.
Proof.
  intros Hadd Hnew. unfold monthlyStep, monthShare.
  destruct (orNull (date sale)) as [d|]; [|lia].
  destruct (find (isMonth (monthLabel d)) l) eqn:Ef.
  - apply (updateFirst_sumWhere mb_name (monthLabel d) k
             (addSale (amount sale)) g (inc (amount sale)) l);
      [reflexivity|apply Hadd|].
    rewrite find_isMonth in Ef. congruence.
  - rewrite sumWhere_app. simpl. now rewrite Hnew.
Qed.

(** The revenue of the bucket of the month [k], if there is one, after one
    more sale. *)
Lemma monthlyStep_revenue (k : string) (l : list MonthlyBucket)
  (sale : NormalizedSale) :
  option_map mb_revenue (find (isMonth k) (monthlyStep monthLabel l sale))
  = if datedIn monthLabel k sale
    then accumulate (option_map mb_revenue (find (isMonth k) l)) (amount sale)
    else option_map mb_revenue (find (isMonth k) l).
Proof.
  unfold monthlyStep, datedIn.
  destruct (orNull (date sale)) as [d|]; [|reflexivity].
  rewrite !find_isMonth.
  destruct (String.eqb_spec (monthLabel d) k) as [<-|Hne].
  - destruct (find (fun m => mb_name m =? monthLabel d) l) eqn:Ef.
    + unfold isMonth.
      rewrite (find_updateFirst_same mb_name); [|reflexivity].
      now rewrite Ef.
    + rewrite find_snoc, Ef. simpl. now rewrite String.eqb_refl.
  - destruct (find (fun m => mb_name m =? monthLabel d) l) eqn:Ef.
    + unfold isMonth.
      now rewrite (find_updateFirst_other mb_name); [|reflexivity|].
    + rewrite find_snoc. simpl.
      destruct (find (fun m => mb_name m =? k) l); [reflexivity|].
      apply String.eqb_neq in Hne. now rewrite Hne.
Qed.

Lemma monthlyStep_NoDup (l : list MonthlyBucket) (sale : NormalizedSale) :
  NoDup (map mb_name l) -> NoDup (map mb_name (monthlyStep monthLabel l sale)).
Proof.
  intros Hnd. unfold monthlyStep. destruct (orNull (date sale)) as [d|]; [|exact Hnd].
  destruct (find (isMonth (monthLabel d)) l) eqn:Ef.
  - now rewrite updateFirst_keys.
  - rewrite map_app. simpl. apply NoDup_snoc; [exact Hnd|].
    now apply find_key_None.
Qed.

(** *** Product buckets *)

(** The value of the bucket of the product [k], if there is one, after one
    more sale. *)
Lemma productStep_value (k : string) (l : list ProductBucket)
  (sale : NormalizedSale) :
  option_map pb_value (find (isProduct k) (productStep randomColor l sale))
  = if ofProduct k sale
    then accumulate (option_map pb_value (find (isProduct k) l)) (amount sale)
    else option_map pb_value (find (isProduct k) l).
Proof.
  unfold productStep, ofProduct, isProduct.
  destruct (String.eqb_spec (productName sale) k) as [<-|Hne].
  - destruct (find (fun p => pb_name p =? productName sale) l) eqn:Ef.
    + rewrite (find_updateFirst_same pb_name); [|reflexivity].
      now rewrite Ef.
    + rewrite find_snoc, Ef. simpl. now rewrite String.eqb_refl.
  - destruct (find (fun p => pb_name p =? productName sale) l) eqn:Ef.
    + now rewrite (find_updateFirst_other pb_name); [|reflexivity|].
    + rewrite find_snoc. simpl.
      destruct (find (fun p => pb_name p =? k) l); [reflexivity|].
      apply String.eqb_neq in Hne. now rewrite Hne.
Qed.

Lemma productStep_NoDup (l : list ProductBucket) (sale : NormalizedSale) :
  NoDup (map pb_name l) -> NoDup (map pb_name (productStep randomColor l sale)).
Proof.
  intros Hnd. unfold productStep.
  destruct (find (isProduct (productName sale)) l) eqn:Ef.
  - now rewrite updateFirst_keys.
  - rewrite map_app. simpl. apply NoDup_snoc; [exact Hnd|].
    now apply find_key_None.
Qed.

(** *** Orders *)

Lemma ordersFrom_full (rows : list Notion.Page) :
  forall sales index orders,
    (10 <= List.length orders)%nat ->
    ordersFrom formatDate formatCurrency rows sales index orders = orders.
Proof.
  induction rows as [|page rows IH]; intros [|sale sales] index orders H;
    simpl; try reflexivity.
  unfold orderStep. destruct (Nat.ltb_spec (List.length orders) 10); [lia|].
  now apply IH.
Qed.

Lemma ordersFrom_entries (rows : list Notion.Page) :
  forall sales index orders,
    ordersFrom formatDate formatCurrency rows sales index orders
    = orders ++ firstn (10 - List.length orders)
                       (entriesFrom formatDate formatCurrency rows sales index).
Proof.
  induction rows as [|page rows IH]; intros [|sale sales] index orders;
    cbn [ordersFrom entriesFrom]; try (now rewrite firstn_nil, app_nil_r).
  unfold orderStep. destruct (Nat.ltb_spec (List.length orders) 10) as [Hlt|Hge].
  - rewrite IH, length_app. cbn [List.length].
    replace (10 - List.length orders)%nat
      with (S (10 - (List.length orders + 1)))%nat by lia.
    cbn [firstn]. now rewrite <- app_assoc.
  - rewrite IH. replace (10 - List.length orders)%nat with 0%nat by lia.
    reflexivity.
Qed.

Lemma entriesFrom_length (rows : list Notion.Page) :
  forall sales index,
    List.length sales = List.length rows ->
    List.length (entriesFrom formatDate formatCurrency rows sales index)
    = List.length rows.
Proof.
  induction rows as [|page rows IH]; intros [|sale sales] index H; simpl in *;
    try reflexivity; try discriminate.
  f_equal. apply IH. lia.
Qed.

Lemma entriesFrom_nth (rows : list Notion.Page) :
  forall sales index i entry,
    nth_error (entriesFrom formatDate formatCurrency rows sales index) i
    = Some entry ->
    exists page sale,
      nth_error rows i = Some page /\ nth_error sales i = Some sale
      /\ entry = orderEntry formatDate formatCurrency (index + i) page sale.
Proof.
  induction rows as [|page rows IH]; intros [|sale sales] index i entry; simpl;
    try (destruct i; discriminate).
  destruct i as [|i]; simpl.
  - intros H. injection H as <-. exists page, sale.
    now rewrite Nat.add_0_r.
  - intros H. destruct (IH _ _ _ _ H) as (p & s & Hp & Hs & ->).
    exists p, s. repeat split; try assumption. f_equal. lia.
Qed.

(** *** What a bucket holds *)

Lemma monthlyOf_NoDup (sales : list NormalizedSale) :
  NoDup (map mb_name (monthlyOf sales)).
Proof.
  apply (fold_left_invariant (monthlyStep monthLabel)
           (fun l => NoDup (map mb_name l))).
  - intros l sale. apply monthlyStep_NoDup.
  - constructor.
Qed.

Lemma productsOf_NoDup (sales : list NormalizedSale) :
  NoDup (map pb_name (productsOf sales)).
Proof.
  apply (fold_left_invariant (productStep randomColor)
           (fun l => NoDup (map pb_name l))).
  - intros l sale. apply productStep_NoDup.
  - constructor.
Qed.

(** A counter of a monthly bucket is the sum of the shares of the sales. *)
Lemma monthly_field (g : MonthlyBucket -> Z) (inc : float -> Z)
  (sales : list NormalizedSale) (b : MonthlyBucket) :
  (forall a m, g (addSale a m) = (g m + inc a)%Z) ->
  (forall n a, g (mkMonthly n a 1 1) = inc a) ->
  In b (monthlyOf sales) ->
  g b = sumZ (map (monthShare monthLabel (mb_name b) inc) sales).
Proof.
  intros Hadd Hnew Hb.
  rewrite <- (sumWhere_unique mb_name g _ b (monthlyOf_NoDup sales) Hb).
  rewrite (fold_left_measure (monthlyStep monthLabel)
             (sumWhere mb_name (mb_name b) g)
             (monthShare monthLabel (mb_name b) inc)).
  - reflexivity.
  - intros l sale. now apply monthlyStep_sumWhere.
Qed.

Lemma monthShare_filter (k : string) (inc : float -> Z)
  (sales : list NormalizedSale) :
  Forall dateOk sales ->
  sumZ (map (monthShare monthLabel k inc) sales)
  = sumZ (map (fun sale => inc (amount sale))
              (filter (inMonth monthLabel k) sales)).
Proof.
  intros Hok. rewrite <- sumZ_filter.
  apply (sumZ_map_ext _ _ dateOk _ Hok).
  intros sale Hs. unfold monthShare, inMonth. rewrite Hs.
  now destruct (date sale).
Qed.

Lemma monthShare_count (k : string) (sales : list NormalizedSale) :
  Forall dateOk sales ->
  sumZ (map (monthShare monthLabel k (fun _ => 1%Z)) sales)
  = countZ (inMonth monthLabel k) sales.
Proof.
  intros Hok. rewrite (monthShare_filter k _ sales Hok).
  unfold countZ. apply sumZ_ones.
Qed.

Lemma datedIn_inMonth (k : string) (sales : list NormalizedSale) :
  Forall dateOk sales ->
  filter (datedIn monthLabel k) sales = filter (inMonth monthLabel k) sales.
Proof.
  intros Hok. induction Hok as [|sale sales Hs _ IH]; simpl; [reflexivity|].
  unfold datedIn at 1, inMonth at 1. rewrite Hs, IH. reflexivity.
Qed.

(** The revenue found for the month [k] is the sum, in input order, of the
    amounts of the dated sales of that month. *)
Lemma monthly_revenue_found (k : string) (sales : list NormalizedSale) :
  Forall dateOk sales ->
  option_map mb_revenue (find (isMonth k) (monthlyOf sales))
  = sumInOrder (map amount (filter (inMonth monthLabel k) sales)).
Proof.
  intros Hok.
  rewrite (fold_left_track (monthlyStep monthLabel)
             (fun l => option_map mb_revenue (find (isMonth k) l))
             (fun acc sale =>
                if datedIn monthLabel k sale then accumulate acc (amount sale)
                else acc)
             (monthlyStep_revenue k)).
  simpl. rewrite (accumulate_filter (datedIn monthLabel k) amount sales None).
  now rewrite datedIn_inMonth.
Qed.

(** The value found for the product [k] is the sum, in input order, of the
    amounts of the sales of that product. *)
Lemma product_value_found (k : string) (sales : list NormalizedSale) :
  option_map pb_value (find (isProduct k) (productsOf sales))
  = sumInOrder (map amount (filter (ofProduct k) sales)).
Proof.
  rewrite (fold_left_track (productStep randomColor)
             (fun l => option_map pb_value (find (isProduct k) l))
             (fun acc sale =>
                if ofProduct k sale then accumulate acc (amount sale) else acc)
             (productStep_value k)).
  simpl. exact (accumulate_filter (ofProduct k) amount sales None).
Qed.

Lemma sumInOrder_of_member {X : Type} (p : X -> bool) (w : X -> float)
  (xs : list X) (x : X) :
  In x xs -> p x = true -> sumInOrder (map w (filter p xs)) <> None.
Proof.
  intros Hx Hp. assert (Hf : In x (filter p xs)) by (now apply filter_In).
  destruct (filter p xs); [destruct Hf|discriminate].
Qed.

(** C1, amended: when every record normalises, GET /proxy/notion answers
    with monthly buckets of distinct names; the revenue of each is the
    binary64 sum, accumulated in input order, of the amounts of the dated
    sales of its month; every dated sale is in the bucket of its month, and
    a sale whose date is [null] is in none. *)
Theorem monthly_revenue_is_dated_amount (rows : list Notion.Page)
  (sales : list NormalizedSale) :
  normalizeAll rows = Ok sales ->
  exists m p o,
    GET (Ok (mkQuery (Some rows))) = mkResponse 200 (GetSuccess true m p o)
    /\ NoDup (map mb_name m)
    /\ (forall b, In b m ->
         sumInOrder (map amount (filter (inMonth monthLabel (mb_name b)) sales))
         = Some (mb_revenue b))
    /\ (forall sale, In sale sales -> hasDate sale = true ->
         exists b, In b m /\ inMonth monthLabel (mb_name b) sale = true)
    /\ (forall sale b, In sale sales -> hasDate sale = false ->
         inMonth monthLabel (mb_name b) sale = false).
Proof.
  intros H. pose proof (normalizeAll_dateOk rows sales H) as Hok.
  eexists _, _, _. split; [exact (getNotion_shaped rows sales H)|].
  split; [apply monthlyOf_NoDup|]. split; [|split].
  - intros b Hb. rewrite <- (monthly_revenue_found (mb_name b) sales Hok).
    rewrite find_isMonth.
    now rewrite (find_unique mb_name _ b (monthlyOf_NoDup sales) Hb).
  - intros sale Hs Hd. unfold hasDate in Hd.
    destruct (date sale) as [d|] eqn:Ed; [|discriminate].
    assert (Hin : inMonth monthLabel (monthLabel d) sale = true).
    { unfold inMonth. rewrite Ed. apply String.eqb_refl. }
    pose proof (sumInOrder_of_member (inMonth monthLabel (monthLabel d)) amount
                  sales sale Hs Hin) as Hsum.
    rewrite <- (monthly_revenue_found (monthLabel d) sales Hok) in Hsum.
    destruct (find (isMonth (monthLabel d)) (monthlyOf sales)) as [b|] eqn:Ef;
      [|now elim Hsum].
    exists b. split; [exact (proj1 (find_some _ _ Ef))|].
    pose proof (proj2 (find_some _ _ Ef)) as Hn. unfold isMonth in Hn.
    apply String.eqb_eq in Hn. now rewrite Hn.
  - intros sale b _ Hd. unfold hasDate in Hd. unfold inMonth.
    now destruct (date sale).
Qed.

(** C8: in every monthly bucket of the answer, [customers] equals [orders],
    and both are the number of dated sales of that month. *)
Theorem monthly_customers_equal_orders (rows : list Notion.Page)
  (sales : list NormalizedSale) :
  normalizeAll rows = Ok sales ->
  exists m p o,
    GET (Ok (mkQuery (Some rows))) = mkResponse 200 (GetSuccess true m p o)
    /\ forall b, In b m ->
         mb_customers b = mb_orders b
         /\ mb_orders b = countZ (inMonth monthLabel (mb_name b)) sales.
Proof.
  intros H. eexists _, _, _. split; [exact (getNotion_shaped rows sales H)|].
  intros b Hb. pose proof (normalizeAll_dateOk rows sales H) as Hok.
  rewrite (monthly_field mb_customers (fun _ => 1%Z) sales b) by
    (try reflexivity; assumption).
  rewrite (monthly_field mb_orders (fun _ => 1%Z) sales b) by
    (try reflexivity; assumption).
  split; [reflexivity|now apply monthShare_count].
Qed.

(** C2, amended: the product buckets of the answer have distinct names; the
    value of each is the binary64 sum, accumulated in input order, of the
    amounts of the sales of its product, dated or not; and every sale is in
    the bucket of its product. *)
Theorem product_value_is_amount (rows : list Notion.Page)
  (sales : list NormalizedSale) :
  normalizeAll rows = Ok sales ->
  exists m p o,
    GET (Ok (mkQuery (Some rows))) = mkResponse 200 (GetSuccess true m p o)
    /\ NoDup (map pb_name p)
    /\ (forall b, In b p ->
         sumInOrder (map amount (filter (ofProduct (pb_name b)) sales))
         = Some (pb_value b))
    /\ (forall sale, In sale sales ->
         exists b, In b p /\ ofProduct (pb_name b) sale = true).
Proof.
  intros H. eexists _, _, _. split; [exact (getNotion_shaped rows sales H)|].
  split; [apply productsOf_NoDup|]. split.
  - intros b Hb. rewrite <- (product_value_found (pb_name b) sales).
    unfold isProduct.
    now rewrite (find_unique pb_name _ b (productsOf_NoDup sales) Hb).
  - intros sale Hs.
    assert (Hin : ofProduct (productName sale) sale = true)
      by apply String.eqb_refl.
    pose proof (sumInOrder_of_member (ofProduct (productName sale)) amount
                  sales sale Hs Hin) as Hsum.
    rewrite <- (product_value_found (productName sale) sales) in Hsum.
    destruct (find (isProduct (productName sale)) (productsOf sales))
      as [b|] eqn:Ef; [|now elim Hsum].
    exists b. split; [exact (proj1 (find_some _ _ Ef))|].
    pose proof (proj2 (find_some _ _ Ef)) as Hn. unfold isProduct in Hn.
    apply String.eqb_eq in Hn. unfold ofProduct. rewrite Hn.
    apply String.eqb_refl.
Qed.

Lemma entryOfRecord_orderEntry (index : nat) (page : Notion.Page)
  (sale : NormalizedSale) :
  normalize page = Ok sale ->
  orderEntry formatDate formatCurrency index page sale
  = entryOfRecord formatDate formatCurrency index page.
Proof.
  intros H. pose proof (normalize_ok_wellShaped _ _ H) as W.
  rewrite (normalize_wellShaped _ W) in H. injection H as <-.
  unfold orderEntry, entryOfRecord. cbn [amount customerName productName date
    paymentMethod]. now rewrite orNull_idempotent.
Qed.

Lemma normalizeAll_nth (rows : list Notion.Page) :
  forall sales i page sale,
    normalizeAll rows = Ok sales ->
    nth_error rows i = Some page -> nth_error sales i = Some sale ->
    normalize page = Ok sale.
Proof.
  induction rows as [|r rows IH]; simpl; intros sales i page sale H Hp Hs;
    [destruct i; discriminate|].
  destruct (normalize r) as [s0|] eqn:En; simpl in H; [|discriminate].
  destruct (normalizeAll rows) as [rest|] eqn:Er; simpl in H; [|discriminate].
  injection H as <-. destruct i as [|i]; simpl in *.
  - injection Hp as <-. now injection Hs as <-.
  - exact (IH rest i page sale eq_refl Hp Hs).
Qed.

(** C3: the orders of the answer are one per record for the first ten
    records, in input order, so there are [min 10 n] of them; the order at
    position [i] carries the identifier of the i-th record, or [#] and its
    1-based position on four digits when it has none, with the customer,
    product and payment method of the record or "Unknown", its amount as
    currency, its date formatted or "-", and the status "completed". *)
Theorem orders_are_first_ten (rows : list Notion.Page)
  (sales : list NormalizedSale) :
  normalizeAll rows = Ok sales ->
  exists m p o,
    GET (Ok (mkQuery (Some rows))) = mkResponse 200 (GetSuccess true m p o)
    /\ List.length o = Nat.min 10 (List.length rows)
    /\ (forall i page,
         nth_error rows i = Some page -> (i < 10)%nat ->
         nth_error o i
         = Some (mkOrder
                   (orStr (Notion.id page)
                          ("#" ++ padStart 4 "0" (toString (i + 1))))
                   (orStr (rawCustomerName page) "Unknown")
                   (formatCurrency (orNum (rawAmount page) 0))
                   (orStr (rawProductName page) "Unknown")
                   (match orNull (rawDate page) with
                    | Some d => formatDate d
                    | None => "-"
                    end)
                   (orStr (rawPaymentMethod page) "Unknown")
                   "completed"))
    /\ forall i page entry,
         nth_error rows i = Some page -> nth_error o i = Some entry ->
         orNull (Notion.id page) = None ->
         oe_id entry = ("#" ++ padStart 4 "0" (toString (i + 1)))%string.
Proof.
  intros H. eexists _, _, _. split; [exact (getNotion_shaped rows sales H)|].
  rewrite ordersFrom_entries. cbn [List.length app]. rewrite Nat.sub_0_r.
  pose proof (normalizeAll_length rows sales H) as Hlen.
  assert (Hat : forall i page,
             nth_error rows i = Some page -> (i < 10)%nat ->
             nth_error (firstn 10 (entriesFrom formatDate formatCurrency rows
                                               sales 0)) i
             = Some (entryOfRecord formatDate formatCurrency i page)).
  { intros i page Hp Hi. rewrite nth_error_firstn.
    destruct (Nat.ltb_spec i 10); [|lia].
    assert (Hi' : (i < List.length
                         (entriesFrom formatDate formatCurrency rows sales 0))%nat).
    { rewrite entriesFrom_length by exact Hlen.
      apply nth_error_Some. congruence. }
    destruct (nth_error (entriesFrom formatDate formatCurrency rows sales 0) i)
      as [entry|] eqn:He; [|apply nth_error_None in He; lia].
    destruct (entriesFrom_nth _ _ _ _ _ He) as (page' & sale & Hp' & Hs & ->).
    rewrite Hp in Hp'. injection Hp' as <-. f_equal.
    apply entryOfRecord_orderEntry.
    exact (normalizeAll_nth rows sales i page sale H Hp Hs). }
  split; [|split].
  - now rewrite length_firstn, entriesFrom_length.
  - exact Hat.
  - intros i page entry Hp He Hid.
    assert (Hi : (i < 10)%nat).
    { destruct (Nat.lt_ge_cases i 10) as [Hlt|Hge]; [exact Hlt|].
      rewrite nth_error_firstn in He.
      destruct (Nat.ltb_spec i 10); [lia|discriminate]. }
    rewrite (Hat i page Hp Hi) in He. injection He as <-.
    unfold entryOfRecord. cbn [oe_id]. now apply orStr_default.
Qed.

(** *** The error branch *)

Lemma forEach_raises (rows : list Notion.Page) :
  forall error index acc,
    normalizeAll rows = Throw error ->
    forEach monthLabel formatDate formatCurrency randomColor rows index acc
    = Throw error.
Proof.
  induction rows as [|page rows IH]; simpl; intros error index acc H;
    [discriminate|].
  unfold callback. destruct (normalize page) as [sale|]; simpl in *;
    [|now injection H as <-].
  destruct (normalizeAll rows) as [rest|] eqn:Er; simpl in H; [discriminate|].
  injection H as <-. now apply IH.
Qed.

Lemma getNotion_catch (upstream : result QueryData) (error : exn) :
  fetchAndShape monthLabel formatDate formatCurrency randomColor upstream
  = Throw error ->
  GET upstream
  = mkResponse 500
      (GetFailure false "Failed to fetch data from Notion" (responseData error)).
Proof. intros H. unfold getNotion. now rewrite H. Qed.

(** C7: however the fetch fails (the query is rejected, with whatever
    upstream status or with none, its answer has no [results], or a row
    makes the normalizer raise), the answer is HTTP 500 with
    [success: false], the fixed message, and the upstream payload, if any,
    as [error]. *)
Theorem get_failure_is_500 (upstream : result QueryData) :
  fetchFails upstream ->
  res_status (GET upstream) = 500%nat
  /\ res_body (GET upstream)
     = GetFailure false "Failed to fetch data from Notion"
                  (upstreamPayload upstream).
Proof.
  intros H.
  assert (Hthrow : exists error,
             fetchAndShape monthLabel formatDate formatCurrency randomColor
                           upstream = Throw error
             /\ responseData error = upstreamPayload upstream).
  { destruct upstream as [response|error]; simpl in *.
    - destruct (results response) as [rows|].
      + destruct (normalizeAll_raises rows H) as [reading Hr].
        exists (TypeError reading). split; [|reflexivity].
        unfold shape. now apply forEach_raises.
      + now eexists.
    - now exists error. }
  destruct Hthrow as (error & Hf & <-).
  rewrite (getNotion_catch upstream error Hf). split; reflexivity.
Qed.

(** Otherwise the answer is HTTP 200 with [success: true]. *)
Lemma get_success_is_200 (rows : list Notion.Page) :
  Forall (fun page => wellShaped page = true) rows ->
  exists m p o,
    GET (Ok (mkQuery (Some rows))) = mkResponse 200 (GetSuccess true m p o).
Proof.
  intros H. destruct (normalizeAll_wellShaped rows H) as [sales Hs].
  eexists _, _, _. exact (getNotion_shaped rows sales Hs).
Qed.

End AggregatorProperties.

(** Evaluation of the aggregator theorems on [sampleRows]. *)

Lemma monthly_revenue_is_dated_amount_witness :
  normalizeAll sampleRows = Ok sampleSales
  /\ exists m p o,
       getNotion sampleMonthLabel sampleDate sampleCurrency sampleColor
                 (Ok (mkQuery (Some sampleRows)))
       = mkResponse 200 (GetSuccess true m p o)
       /\ NoDup (map mb_name m)
       /\ (forall b, In b m ->
            sumInOrder
              (map amount
                   (filter (inMonth sampleMonthLabel (mb_name b)) sampleSales))
            = Some (mb_revenue b))
       /\ (forall sale, In sale sampleSales -> hasDate sale = true ->
            exists b, In b m /\ inMonth sampleMonthLabel (mb_name b) sale = true)
       /\ (forall sale b, In sale sampleSales -> hasDate sale = false ->
            inMonth sampleMonthLabel (mb_name b) sale = false).
Proof.
  split; [reflexivity|].
  apply (monthly_revenue_is_dated_amount sampleMonthLabel sampleDate
           sampleCurrency sampleColor sampleRows sampleSales).
  reflexivity.
Defined.

(** C1, as stated, fails: binary64 addition rounds, and the buckets add the
    amounts in another grouping than a sum over the sales.  With the amounts
    1, 2^53, 1, 1 over two months the revenues are 2 and 2^53, whose sum is
    2^53 + 2, where the amounts sum to 2^53 in binary64 and to 2^53 + 3 as
    integers; with the prices 19.99, 19.99 and 0.2 the revenues sum to
    40.17999999999999 and the amounts to 40.18. *)
Lemma monthly_revenue_rounds :
  let large :=
    monthlyOfAnswer (getNotion sampleMonthLabel sampleDate sampleCurrency
                               sampleColor (Ok (mkQuery (Some largeRows)))) in
  let decimal :=
    monthlyOfAnswer (getNotion sampleMonthLabel sampleDate sampleCurrency
                               sampleColor (Ok (mkQuery (Some decimalRows)))) in
  map mb_revenue large = [2; 9007199254740992]%float
  /\ sumFloat (map mb_revenue large) = 9007199254740994%float
  /\ sumFloat (map amount (filter hasDate (salesOf largeRows)))
     = 9007199254740992%float
  /\ sumZ (map integerOf (map mb_revenue large)) = 9007199254740994%Z
  /\ sumZ (map integerOf (map amount (filter hasDate (salesOf largeRows))))
     = 9007199254740995%Z
  /\ sumFloat (map mb_revenue decimal) = 40.17999999999999%float
  /\ sumFloat (map amount (filter hasDate (salesOf decimalRows)))
     = 40.18%float
  /\ sumFloat (map mb_revenue decimal)
     <> sumFloat (map amount (filter hasDate (salesOf decimalRows))).
Proof.
  cbv zeta. repeat split; try (vm_compute; reflexivity).
  intros H.
  apply (f_equal (fun x => (x =? 40.18)%float)) in H.
  vm_compute in H. discriminate H.
Qed.

Lemma monthly_customers_equal_orders_witness :
  normalizeAll sampleRows = Ok sampleSales
  /\ exists m p o,
       getNotion sampleMonthLabel sampleDate sampleCurrency sampleColor
                 (Ok (mkQuery (Some sampleRows)))
       = mkResponse 200 (GetSuccess true m p o)
       /\ forall b, In b m ->
            mb_customers b = mb_orders b
            /\ mb_orders b
               = countZ (inMonth sampleMonthLabel (mb_name b)) sampleSales.
Proof.
  split; [reflexivity|].
  apply (monthly_customers_equal_orders sampleMonthLabel sampleDate
           sampleCurrency sampleColor sampleRows sampleSales).
  reflexivity.
Defined.

Lemma product_value_is_amount_witness :
  normalizeAll sampleRows = Ok sampleSales
  /\ exists m p o,
       getNotion sampleMonthLabel sampleDate sampleCurrency sampleColor
                 (Ok (mkQuery (Some sampleRows)))
       = mkResponse 200 (GetSuccess true m p o)
       /\ NoDup (map pb_name p)
       /\ (forall b, In b p ->
            sumInOrder (map amount (filter (ofProduct (pb_name b)) sampleSales))
            = Some (pb_value b))
       /\ (forall sale, In sale sampleSales ->
            exists b, In b p /\ ofProduct (pb_name b) sale = true).
Proof.
  split; [reflexivity|].
  apply (product_value_is_amount sampleMonthLabel sampleDate sampleCurrency
           sampleColor sampleRows sampleSales).
  reflexivity.
Defined.

(** C2, as stated, fails, for the same reason as C1: with the amounts 1,
    2^53, 1, 1 over two products the values are 2 and 2^53, whose sum is
    2^53 + 2, where the amounts sum to 2^53 in binary64 and to 2^53 + 3 as
    integers; with the prices 19.99, 19.99 and 0.2 the values sum to
    40.17999999999999 and the amounts to 40.18. *)
Lemma product_value_rounds :
  let large :=
    productsOfAnswer (getNotion sampleMonthLabel sampleDate sampleCurrency
                                sampleColor (Ok (mkQuery (Some largeRows)))) in
  let decimal :=
    productsOfAnswer (getNotion sampleMonthLabel sampleDate sampleCurrency
                                sampleColor (Ok (mkQuery (Some decimalRows)))) in
  map pb_value large = [2; 9007199254740992]%float
  /\ sumFloat (map pb_value large) = 9007199254740994%float
  /\ sumFloat (map amount (salesOf largeRows)) = 9007199254740992%float
  /\ sumZ (map integerOf (map pb_value large)) = 9007199254740994%Z
  /\ sumZ (map integerOf (map amount (salesOf largeRows)))
     = 9007199254740995%Z
  /\ sumFloat (map pb_value decimal) = 40.17999999999999%float
  /\ sumFloat (map amount (salesOf decimalRows)) = 40.18%float
  /\ sumFloat (map pb_value decimal)
     <> sumFloat (map amount (salesOf decimalRows)).
Proof.
  cbv zeta. repeat split; try (vm_compute; reflexivity).
  intros H.
  apply (f_equal (fun x => (x =? 40.18)%float)) in H.
  vm_compute in H. discriminate H.
Qed.

Lemma orders_are_first_ten_witness :
  normalizeAll sampleRows = Ok sampleSales
  /\ exists m p o,
       getNotion sampleMonthLabel sampleDate sampleCurrency sampleColor
                 (Ok (mkQuery (Some sampleRows)))
       = mkResponse 200 (GetSuccess true m p o)
       /\ List.length o = Nat.min 10 (List.length sampleRows)
       /\ (forall i page,
            nth_error sampleRows i = Some page -> (i < 10)%nat ->
            nth_error o i
            = Some (mkOrder
                      (orStr (Notion.id page)
                             ("#" ++ padStart 4 "0" (toString (i + 1))))
                      (orStr (rawCustomerName page) "Unknown")
                      (sampleCurrency (orNum (rawAmount page) 0))
                      (orStr (rawProductName page) "Unknown")
                      (match orNull (rawDate page) with
                       | Some d => sampleDate d
                       | None => "-"
                       end)
                      (orStr (rawPaymentMethod page) "Unknown")
                      "completed"))
       /\ forall i page entry,
            nth_error sampleRows i = Some page -> nth_error o i = Some entry ->
            orNull (Notion.id page) = None ->
            oe_id entry = ("#" ++ padStart 4 "0" (toString (i + 1)))%string.
Proof.
  split; [reflexivity|].
  apply (orders_are_first_ten sampleMonthLabel sampleDate sampleCurrency
           sampleColor sampleRows sampleSales).
  reflexivity.
Defined.

Lemma get_failure_is_500_witness :
  fetchFails notFound
  /\ res_status (getNotion sampleMonthLabel sampleDate sampleCurrency
                           sampleColor notFound) = 500%nat
  /\ res_body (getNotion sampleMonthLabel sampleDate sampleCurrency
                         sampleColor notFound)
     = GetFailure false "Failed to fetch data from Notion"
                  (upstreamPayload notFound).
Proof.
  split; [exact I|].
  apply (get_failure_is_500 sampleMonthLabel sampleDate sampleCurrency
           sampleColor notFound).
  exact I.
Defined.

(** ** Validation of a create-sale request *)

Section CreateSaleProperties.

Variable NOTION_DATABASE_ID : string.
Variable axiosPost : NotionData -> result value.

Local Notation POST body := (postNotion NOTION_DATABASE_ID axiosPost body).

(** A request with a falsy field is answered before any outbound call. *)
Lemma postNotion_missing (body : CreateBody) :
  missingFields body = true -> POST (Some body) = rejection.
Proof. intros H. unfold postNotion. now rewrite H. Qed.

(** A request whose five fields are truthy reaches the Notion API once. *)
Lemma postNotion_forwarded (body : CreateBody) :
  missingFields body = false ->
  fst (POST (Some body)) = [notionData NOTION_DATABASE_ID body].
Proof.
  intros H. unfold postNotion. rewrite H.
  now destruct (response <- axiosPost (notionData NOTION_DATABASE_ID body) ;;
                member response "id").
Qed.




(** C9, amended: a request whose amount is the number 0, of either sign, or
    whose customer name, product name, date or payment method is the empty
    string, is answered with HTTP 400 and the missing-fields message, and no
    call is made to the Notion API. *)
Theorem create_rejects_falsy_field (body : CreateBody) :
  (exists n, b_amount body = VNum n /\ (n =? 0)%float = true)
  \/ b_customerName body = VStr ""
  \/ b_productName body = VStr "" \/ b_date body = VStr ""
  \/ b_paymentMethod body = VStr "" ->
  fst (POST (Some body)) = []
  /\ snd (POST (Some body))
     = mkResponse 400
         (PostError "error" (VStr "Missing required fields") VUndefined).
Proof.
  intros H. rewrite postNotion_missing; [split; reflexivity|].
  unfold missingFields.
  destruct H as [(n & H & Hn)|[H|[H|[H|H]]]]; rewrite H.
  - unfold truthy, is_zero. change zero with 0%float. now rewrite Hn.
  - simpl. repeat rewrite orb_true_r. reflexivity.
  - simpl. repeat rewrite orb_true_r. reflexivity.
  - simpl. repeat rewrite orb_true_r. reflexivity.
  - simpl. repeat rewrite orb_true_r. reflexivity.
Qed.

End CreateSaleProperties.



Lemma create_rejects_falsy_field_witness :
  ((exists n, b_amount bodyOfZero = VNum n /\ (n =? 0)%float = true)
   \/ b_customerName bodyOfZero = VStr ""
   \/ b_productName bodyOfZero = VStr "" \/ b_date bodyOfZero = VStr ""
   \/ b_paymentMethod bodyOfZero = VStr "")
  /\ fst (postNotion "db" acceptingNotion (Some bodyOfZero)) = []
  /\ snd (postNotion "db" acceptingNotion (Some bodyOfZero))
     = mkResponse 400
         (PostError "error" (VStr "Missing required fields") VUndefined).
Proof.
  split; [left; exists 0%float; split; reflexivity|].
  apply (create_rejects_falsy_field "db" acceptingNotion bodyOfZero).
  left. exists 0%float. split; reflexivity.
Defined.

(** C9, as stated, fails in its last part: a request whose amount is the
    string ["0"] passes the validation, and the gateway sends Notion a page
    whose Amount is the number 0. *)
Lemma create_forwards_zero_string :
  postNotion "db" acceptingNotion (Some bodyOfZeroString)
  = ([mkNotionData "db" 0 (VStr "Ann") (VStr "Widget")
                   (VStr "2025-01-05") (VStr "Cash")],
     mkResponse 200
       (PostSuccess "success" "Data successfully saved to Notion"
                    (VStr "page-1")))
  /\ ~ (forall dbid axiosPost body sent,
          In sent (fst (postNotion dbid axiosPost body)) ->
          nd_number sent <> 0%float).
Proof.
  split; [vm_compute; reflexivity|].
  intros H.
  apply (H "db" acceptingNotion (Some bodyOfZeroString)
           (mkNotionData "db" 0 (VStr "Ann") (VStr "Widget")
                         (VStr "2025-01-05") (VStr "Cash")));
    [left|]; vm_compute; reflexivity.
Qed.

(** ** The optimistic update against the aggregator *)

Lemma updateFirst_map {A B : Type} (g : A -> B) (p : A -> bool)
  (f f' : A -> A) (l : list A) :
  (forall x, g (f x) = g (f' x)) ->
  map g (updateFirst p f l) = map g (updateFirst p f' l).
Proof.
  intros Hg. induction l as [|x l IH]; simpl; [reflexivity|].
  destruct (p x); simpl; [now rewrite Hg|now rewrite IH].
Qed.

Lemma updateFirst_ext {A : Type} (p : A -> bool) (f f' : A -> A) (l : list A) :
  (forall x, f x = f' x) -> updateFirst p f l = updateFirst p f' l.
Proof.
  intros Hf. rewrite <- (map_id (updateFirst p f l)).
  rewrite <- (map_id (updateFirst p f' l)). now apply updateFirst_map.
Qed.

Lemma updateFirst_fixed {A B : Type} (g : A -> B) (p : A -> bool)
  (f : A -> A) (l : list A) :
  (forall x, g (f x) = g x) -> map g (updateFirst p f l) = map g l.
Proof.
  intros Hg. induction l as [|x l IH]; simpl; [reflexivity|].
  destruct (p x); simpl; [now rewrite Hg|now rewrite IH].
Qed.

Section OptimisticUpdateProperties.

Variable monthLabel : string -> string.
Variable formatDate : string -> string.
Variable formatCurrency : float -> string.
Variable randomColor : nat -> string.
Variable now : nat.

(** On buckets with unique names the updater of [setMonthlyData] rewrites the
    bucket that the aggregator rewrites; it leaves [customers] alone when the
    customer already shows in the recent orders. *)
Lemma setMonthlyData_updateFirst (recent : list OrderEntry) (month : string)
  (customer : string) (amountNum : float) (prev : list MonthlyBucket) :
  NoDup (map mb_name prev) ->
  setMonthlyData recent month customer amountNum prev
  = match find (isMonth month) prev with
    | Some _ =>
        updateFirst (isMonth month)
          (fun item =>
             mkMonthly (mb_name item) (mb_revenue item + amountNum)%float
                       (mb_orders item + 1)%Z
                       (if existsb (fun order => oe_customer order =? customer)
                                   recent
                        then mb_customers item
                        else (mb_customers item + 1)%Z))
          prev
    | None => prev ++ [mkMonthly month amountNum 1 1]
    end.
Proof.
  intros Hnd. unfold setMonthlyData. rewrite <- find_isMonth.
  destruct (find (isMonth month) prev); [|reflexivity].
  exact (map_if_updateFirst mb_name month _ prev Hnd).
Qed.

Lemma setProductData_names_values (product : string) (amountNum : float)
  (prev : list ProductBucket) (sale : NormalizedSale) :
  NoDup (map pb_name prev) ->
  productName sale = product -> amount sale = amountNum ->
  map pb_name (setProductData product amountNum prev)
  = map pb_name (productStep randomColor prev sale)
  /\ map pb_value (setProductData product amountNum prev)
     = map pb_value (productStep randomColor prev sale).
Proof.
  intros Hnd <- <-. unfold setProductData, productStep.
  change (find (fun item => pb_name item =? productName sale) prev)
    with (find (isProduct (productName sale)) prev).
  destruct (find (isProduct (productName sale)) prev).
  - rewrite (map_if_updateFirst pb_name (productName sale) _ prev Hnd).
    split; reflexivity.
  - rewrite !map_app. split; reflexivity.
Qed.

(** The optimistic update keeps the bucket names unique, as the aggregator
    does. *)
Lemma handleFormSubmit_NoDup (st : Dashboard) (formData : FormData) :
  NoDup (map mb_name (monthlyData st)) ->
  NoDup (map pb_name (productData st)) ->
  NoDup (map mb_name
           (monthlyData
              (handleFormSubmit monthLabel formatDate formatCurrency now
                                st formData)))
  /\ NoDup (map pb_name
              (productData
                 (handleFormSubmit monthLabel formatDate formatCurrency now
                                   st formData))).
Proof.
  intros Hm Hp. unfold handleFormSubmit. cbn [monthlyData productData]. split.
  - rewrite (setMonthlyData_updateFirst _ _ _ _ _ Hm).
    destruct (find (isMonth (monthLabel (fd_date formData))) (monthlyData st))
      eqn:Ef.
    + now rewrite updateFirst_keys.
    + rewrite map_app. apply NoDup_snoc; [exact Hm|].
      now apply find_key_None.
  - unfold setProductData.
    destruct (find (fun item => pb_name item =? fd_productName formData)
                   (productData st)) eqn:Ef.
    + rewrite (map_if_updateFirst pb_name _ _ _ Hp).
      now rewrite updateFirst_keys.
    + rewrite map_app. apply NoDup_snoc; [exact Hp|].
      now apply find_key_None.
Qed.

(** C5, amended: on a dashboard whose bucket names are unique, for every
    submitted sale with a non-empty date, whatever the text of its amount,
    the optimistic update gives the monthly buckets the names, revenues and
    orders, and the product buckets the names and values, that the update
    rule of the aggregator gives for the same sale, the amount being the
    number [parseFloat] reads; [customers] agrees too, except when the month
    has a bucket and the customer shows in the recent orders, where the
    optimistic update leaves [customers] as it was. *)
Theorem optimistic_update_matches_aggregator (st : Dashboard)
  (formData : FormData) :
  fd_date formData <> "" ->
  NoDup (map mb_name (monthlyData st)) ->
  NoDup (map pb_name (productData st)) ->
  let st' :=
    handleFormSubmit monthLabel formatDate formatCurrency now st formData in
  let sale := saleOfForm formData in
  let byRule := monthlyStep monthLabel (monthlyData st) sale in
  let productsByRule := productStep randomColor (productData st) sale in
  map mb_name (monthlyData st') = map mb_name byRule
  /\ map mb_revenue (monthlyData st') = map mb_revenue byRule
  /\ map mb_orders (monthlyData st') = map mb_orders byRule
  /\ map pb_name (productData st') = map pb_name productsByRule
  /\ map pb_value (productData st') = map pb_value productsByRule
  /\ map mb_customers (monthlyData st')
     = match find (isMonth (monthLabel (fd_date formData)))
                  (monthlyData st) with
       | Some _ =>
           if existsb (fun order =>
                         oe_customer order =? fd_customerName formData)
                      (recentOrders st)
           then map mb_customers (monthlyData st)
           else map mb_customers byRule
       | None => map mb_customers byRule
       end.
Proof.
  intros Hdate Hm Hp. cbv zeta. unfold handleFormSubmit.
  cbn [monthlyData productData].
  assert (Hsale : orNull (date (saleOfForm formData))
                  = Some (fd_date formData)).
  { unfold saleOfForm. cbn [date]. rewrite orNull_idempotent. unfold orNull.
    apply String.eqb_neq in Hdate. now rewrite Hdate. }
  destruct (setProductData_names_values (fd_productName formData)
              (parseFloat (VStr (fd_amount formData)))
              (productData st) (saleOfForm formData) Hp
              eq_refl eq_refl) as [Hpn Hpv].
  rewrite (setMonthlyData_updateFirst _ _ _ _ _ Hm).
  unfold monthlyStep. rewrite Hsale.
  change (amount (saleOfForm formData))
    with (parseFloat (VStr (fd_amount formData))).
  destruct (find (isMonth (monthLabel (fd_date formData))) (monthlyData st)).
  - repeat split; try assumption;
      try (apply updateFirst_map; intros x; reflexivity).
    destruct (existsb _ (recentOrders st)).
    + apply updateFirst_fixed. reflexivity.
    + apply updateFirst_map. reflexivity.
  - repeat split; assumption.
Qed.

End OptimisticUpdateProperties.

Lemma optimistic_update_matches_aggregator_witness :
  fd_date formOfDecimal <> ""
  /\ NoDup (map mb_name (monthlyData dashboardOfAnn))
  /\ NoDup (map pb_name (productData dashboardOfAnn))
  /\ let st' :=
       handleFormSubmit sampleMonthLabel sampleDate sampleCurrency 17
                        dashboardOfAnn formOfDecimal in
     let sale := saleOfForm formOfDecimal in
     let byRule :=
       monthlyStep sampleMonthLabel (monthlyData dashboardOfAnn) sale in
     let productsByRule :=
       productStep sampleColor (productData dashboardOfAnn) sale in
     map mb_name (monthlyData st') = map mb_name byRule
     /\ map mb_revenue (monthlyData st') = map mb_revenue byRule
     /\ map mb_orders (monthlyData st') = map mb_orders byRule
     /\ map pb_name (productData st') = map pb_name productsByRule
     /\ map pb_value (productData st') = map pb_value productsByRule
     /\ map mb_customers (monthlyData st')
        = match find (isMonth (sampleMonthLabel (fd_date formOfDecimal)))
                     (monthlyData dashboardOfAnn) with
          | Some _ =>
              if existsb (fun order =>
                            oe_customer order
                            =? fd_customerName formOfDecimal)
                         (recentOrders dashboardOfAnn)
              then map mb_customers (monthlyData dashboardOfAnn)
              else map mb_customers byRule
          | None => map mb_customers byRule
          end.
Proof.
  split; [discriminate|].
  split; [repeat constructor; simpl; tauto|].
  split; [repeat constructor; simpl; tauto|].
  apply (optimistic_update_matches_aggregator sampleMonthLabel sampleDate
           sampleCurrency sampleColor 17 dashboardOfAnn formOfDecimal).
  - discriminate.
  - repeat constructor; simpl; tauto.
  - repeat constructor; simpl; tauto.
Defined.

(** C5, as stated, fails: when Ann, who shows in the recent orders, buys
    again in a month that has a bucket, the optimistic update keeps
    [customers] at 1 where the update rule of the aggregator counts 2. *)
Lemma optimistic_update_keeps_customers :
  map mb_customers
    (monthlyData
       (handleFormSubmit sampleMonthLabel sampleDate sampleCurrency 17
                         dashboardOfAnn (formOf "Ann")))
  = [1%Z]
  /\ map mb_customers
       (monthlyStep sampleMonthLabel (monthlyData dashboardOfAnn)
                    (saleOfForm (formOf "Ann")))
     = [2%Z]
  /\ monthlyData
       (handleFormSubmit sampleMonthLabel sampleDate sampleCurrency 17
                         dashboardOfAnn (formOf "Ann"))
     <> monthlyStep sampleMonthLabel (monthlyData dashboardOfAnn)
                    (saleOfForm (formOf "Ann")).
Proof.
  split; [vm_compute; reflexivity|]. split; [vm_compute; reflexivity|].
  intros H. apply (f_equal (map mb_customers)) in H.
  vm_compute in H. discriminate H.
Qed.

(** * Further properties of the code *)

(** ** The database identifier *)

Lemma removeDashes_app (a b : string) :
  removeDashes (a ++ b) = (removeDashes a ++ removeDashes b)%string.
Proof.
  induction a as [|c a IH]; simpl; [reflexivity|].
  destruct (c =? "-")%char; simpl; now rewrite IH.
Qed.

Lemma removeDashes_idempotent (s : string) :
  removeDashes (removeDashes s) = removeDashes s.
Proof.
  induction s as [|c s IH]; simpl; [reflexivity|].
  destruct (c =? "-")%char eqn:E; simpl; [exact IH|]. now rewrite E, IH.
Qed.

Lemma removeDashes_groups (p1 p2 p3 p4 p5 : string) :
  removeDashes (p1 ++ "-" ++ p2 ++ "-" ++ p3 ++ "-" ++ p4 ++ "-" ++ p5)
  = removeDashes (p1 ++ p2 ++ p3 ++ p4 ++ p5).
Proof. rewrite !removeDashes_app. reflexivity. Qed.

Lemma orNull_Some (s : string) : s <> "" -> orNull (Some s) = Some s.
Proof.
  intros H. unfold orNull. apply String.eqb_neq in H. now rewrite H.
Qed.

Ltac explode c H :=
  do 32 (destruct c as [|? c]; [discriminate H|]);
  destruct c; [|discriminate H].

(** The five groups of a 32-character identifier make it up again, and the
    dashes between them stand at the positions 8, 13, 18 and 23 of a string
    of 36 characters. *)
Lemma groups_of_32 (c : string) :
  String.length c = 32%nat ->
  (substring 0 8 c ++ substring 8 4 c ++ substring 12 4 c ++ substring 16 4 c
   ++ substringFrom 20 c)%string = c
  /\ let formatted :=
       (substring 0 8 c ++ "-" ++ substring 8 4 c ++ "-" ++ substring 12 4 c
        ++ "-" ++ substring 16 4 c ++ "-" ++ substringFrom 20 c)%string in
     String.length formatted = 36%nat
     /\ get 8 formatted = Some "-"%char /\ get 13 formatted = Some "-"%char
     /\ get 18 formatted = Some "-"%char /\ get 23 formatted = Some "-"%char.
Proof.
  intros H. explode c H. repeat split; reflexivity.
Qed.

Lemma formatNotionId_32 (id : string) :
  String.length (removeDashes id) = 32%nat ->
  formatNotionId (Some id)
  = Some (substring 0 8 (removeDashes id) ++ "-"
          ++ substring 8 4 (removeDashes id) ++ "-"
          ++ substring 12 4 (removeDashes id) ++ "-"
          ++ substring 16 4 (removeDashes id) ++ "-"
          ++ substringFrom 20 (removeDashes id))%string.
Proof.
  intros H. unfold formatNotionId. rewrite orNull_Some.
  - now rewrite H.
  - intros ->. discriminate H.
Qed.

(** X1: an identifier with 32 characters besides its dashes is formatted as
    36 characters, with dashes at the positions 8, 13, 18 and 23, that are
    the 32 characters of the identifier once the dashes are removed. *)
Theorem formatNotionId_dashes (id : string) :
  String.length (removeDashes id) = 32%nat ->
  exists formatted,
    formatNotionId (Some id) = Some formatted
    /\ String.length formatted = 36%nat
    /\ removeDashes formatted = removeDashes id
    /\ get 8 formatted = Some "-"%char /\ get 13 formatted = Some "-"%char
    /\ get 18 formatted = Some "-"%char /\ get 23 formatted = Some "-"%char.
Proof.
  intros H. eexists. split; [exact (formatNotionId_32 id H)|].
  destruct (groups_of_32 _ H) as (Hc & Hl & Hd).
  split; [exact Hl|]. split; [|exact Hd].
  rewrite removeDashes_groups, Hc. apply removeDashes_idempotent.
Qed.

Lemma formatNotionId_dashes_witness :
  String.length (removeDashes "0123456789abcdef-0123456789abcdef") = 32%nat
  /\ exists formatted,
       formatNotionId (Some "0123456789abcdef-0123456789abcdef")
       = Some formatted
       /\ String.length formatted = 36%nat
       /\ removeDashes formatted
          = removeDashes "0123456789abcdef-0123456789abcdef"
       /\ get 8 formatted = Some "-"%char /\ get 13 formatted = Some "-"%char
       /\ get 18 formatted = Some "-"%char /\ get 23 formatted = Some "-"%char.
Proof.
  split; [reflexivity|].
  apply (formatNotionId_dashes "0123456789abcdef-0123456789abcdef").
  reflexivity.
Defined.

(** The formatter gives [null] on an absent or empty identifier only, and
    never the empty string. *)
Lemma formatNotionId_null (id : option string) :
  orNull (formatNotionId id) = None <-> orNull id = None.
Proof.
  unfold formatNotionId. destruct (orNull id) as [id'|] eqn:E; [|tauto].
  split; [|discriminate]. intros H. exfalso. revert H.
  assert (Hid : id' <> "").
  { intros ->. exact (orNull_not_empty id E). }
  destruct (String.length (removeDashes id') =? 32)%nat eqn:El; cbn [negb].
  - apply Nat.eqb_eq in El. destruct (groups_of_32 _ El) as (_ & Hl & _).
    rewrite orNull_Some; [discriminate|]. intros Hr. cbv zeta in Hl.
    rewrite Hr in Hl. discriminate Hl.
  - now rewrite orNull_Some.
Qed.

(** X2: formatting is idempotent: the formatted identifier, dashed or left
    as it was, is formatted to itself. *)
Theorem formatNotionId_idempotent (id : option string) :
  formatNotionId (formatNotionId id) = formatNotionId id.
Proof.
  destruct (orNull id) as [id'|] eqn:E.
  - assert (Hid : id' <> "") by (intros ->; exact (orNull_not_empty id E)).
    assert (Hf : formatNotionId id = formatNotionId (Some id')).
    { unfold formatNotionId. now rewrite E, (orNull_Some _ Hid). }
    rewrite Hf. clear Hf E id.
    destruct (String.length (removeDashes id') =? 32)%nat eqn:El.
    + apply Nat.eqb_eq in El.
      destruct (formatNotionId_dashes id' El) as (r & Hr & _ & Hc & _).
      rewrite Hr.
      assert (El' : String.length (removeDashes r) = 32%nat) by
        (now rewrite Hc).
      rewrite (formatNotionId_32 r El'), Hc, <- (formatNotionId_32 id' El).
      exact Hr.
    + assert (Hs : formatNotionId (Some id') = Some id').
      { unfold formatNotionId. now rewrite (orNull_Some _ Hid), El. }
      now rewrite Hs, Hs.
  - assert (Hf : formatNotionId id = None).
    { unfold formatNotionId. now rewrite E. }
    now rewrite Hf.
Qed.

(** X3: the gateway stops at start-up exactly when the token or the database
    identifier is absent or empty; otherwise it runs with the formatted
    identifier, which is not empty. *)
Theorem startup_exits_iff_missing (token rawDatabaseId : option string) :
  (startup token rawDatabaseId = None
   <-> orNull token = None \/ orNull rawDatabaseId = None)
  /\ forall config,
       startup token rawDatabaseId = Some config ->
       formatNotionId rawDatabaseId = Some (cfg_databaseId config)
       /\ cfg_databaseId config <> "" /\ cfg_token config <> "".
Proof.
  unfold startup. pose proof (formatNotionId_null rawDatabaseId) as Hn.
  destruct (orNull token) as [t|] eqn:Et.
  - destruct (orNull (formatNotionId rawDatabaseId)) as [d|] eqn:Ed; split.
    + split; [discriminate|]. intros [H|H]; [discriminate|].
      apply Hn in H. discriminate.
    + intros config H. injection H as <-. simpl.
      assert (Hd : d <> "") by (intros ->; exact (orNull_not_empty _ Ed)).
      assert (Ht : t <> "") by (intros ->; exact (orNull_not_empty _ Et)).
      repeat split; try assumption.
      destruct (formatNotionId rawDatabaseId) as [f|]; [|discriminate].
      unfold orNull in Ed. destruct (f =? ""); [discriminate|].
      now injection Ed as ->.
    + split; [intros _; right; now apply Hn|reflexivity].
    + discriminate.
  - split; [split; [now left|reflexivity]|discriminate].
Qed.

(** ** The answers of POST /proxy/notion *)

Section CreateSaleAnswers.

Variable databaseId : string.
Variable axiosPost : NotionData -> result value.

Local Notation POST body := (postNotion databaseId axiosPost body).
Local Notation sentFor body := (notionData databaseId body).

(** X4: the gateway answers with a success body only to a request that had
    a parsed body, passed the validation and that Notion accepted; the
    answer is then HTTP 200 with the identifier of the page Notion created,
    after one call. *)
Theorem create_success_means_created (body : option CreateBody) (code : nat)
  (status message : string) (pageId : value) :
  snd (POST body) = mkResponse code (PostSuccess status message pageId) ->
  exists fields,
    body = Some fields
    /\ missingFields fields = false
    /\ code = 200%nat
    /\ fst (POST body) = [sentFor fields]
    /\ exists data,
         axiosPost (sentFor fields) = Ok data /\ member data "id" = Ok pageId.
Proof.
  destruct body as [fields|]; [|discriminate].
  unfold postNotion. destruct (missingFields fields) eqn:Ev; [discriminate|].
  destruct (axiosPost (sentFor fields)) as [data|error] eqn:Ea; simpl;
    [|discriminate].
  destruct (member data "id") as [found|error] eqn:Em; simpl; [|discriminate].
  intros H. injection H as <- _ _ <-. exists fields.
  split; [reflexivity|]. split; [exact Ev|]. split; [reflexivity|].
  split; [reflexivity|]. now exists data.
Qed.

(** X6: when Notion cannot be reached, or accepts without a payload, the
    gateway answers HTTP 500 with its own message and no details, after one
    call. *)
Theorem create_answers_500_without_upstream (body : CreateBody) :
  missingFields body = false ->
  axiosPost (sentFor body) = Throw (AxiosError None)
  \/ axiosPost (sentFor body) = Ok VUndefined
  \/ axiosPost (sentFor body) = Ok VNull ->
  POST (Some body)
  = ([sentFor body],
     mkResponse 500
       (PostError "error" (VStr "Failed to create page in Notion") VUndefined)).
Proof.
  intros Hv Ha. unfold postNotion. rewrite Hv.
  destruct Ha as [Ha|[Ha|Ha]]; now rewrite Ha.
Qed.

(** X17: whatever the request, with a parsed body or without, and whatever
    Notion does, the gateway makes at most one call, never answers with
    status 0, answers a success body with HTTP 200 only, and never sends an
    error body without a message. *)
Theorem create_answer_never_blank (body : option CreateBody) :
  (List.length (fst (POST body)) <= 1)%nat
  /\ res_status (snd (POST body)) <> 0%nat
  /\ match res_body (snd (POST body)) with
     | PostSuccess _ _ _ => res_status (snd (POST body)) = 200%nat
     | PostError _ message _ => truthy message = true
     end.
Proof.
  assert (Hs : forall error, responseStatus error <> 0%nat).
  { intros error. unfold responseStatus.
    destruct (response error) as [r|]; [|discriminate].
    destruct (Nat.eqb_spec (JS.status r) 0); [discriminate|assumption]. }
  assert (Hm : forall a, truthy (JS.or a (VStr "Failed to create page in Notion"))
                         = true).
  { intros a. unfold JS.or. now destruct (truthy a) eqn:E. }
  destruct body as [fields|];
    [|repeat split; [simpl; lia|discriminate]].
  unfold postNotion. destruct (missingFields fields); simpl;
    [repeat split; [lia|discriminate]|].
  destruct (axiosPost (sentFor fields)) as [data|error]; simpl;
    [destruct (member data "id"); simpl|];
    repeat split; try lia; try discriminate; try apply Hs; apply Hm.
Qed.

End CreateSaleAnswers.

Lemma create_success_means_created_witness :
  snd (postNotion "db" acceptingNotion (Some bodyOfZeroString))
  = mkResponse 200
      (PostSuccess "success" "Data successfully saved to Notion"
                   (VStr "page-1"))
  /\ exists fields,
       Some bodyOfZeroString = Some fields
       /\ missingFields fields = false
       /\ 200%nat = 200%nat
       /\ fst (postNotion "db" acceptingNotion (Some bodyOfZeroString))
          = [notionData "db" fields]
       /\ exists data,
            acceptingNotion (notionData "db" fields) = Ok data
            /\ member data "id" = Ok (VStr "page-1").
Proof.
  split; [reflexivity|].
  apply (create_success_means_created "db" acceptingNotion
           (Some bodyOfZeroString)
           200 "success" "Data successfully saved to Notion" (VStr "page-1")).
  reflexivity.
Defined.

Lemma create_answers_500_without_upstream_witness :
  missingFields bodyOfZeroString = false
  /\ postNotion "db" unreachableNotion (Some bodyOfZeroString)
     = ([notionData "db" bodyOfZeroString],
        mkResponse 500
          (PostError "error" (VStr "Failed to create page in Notion")
                     VUndefined)).
Proof.
  split; [reflexivity|].
  apply (create_answers_500_without_upstream "db" unreachableNotion
           bodyOfZeroString); [reflexivity|left; reflexivity].
Defined.

(** ** The order of the buckets, the colours and the metrics *)

Lemma existsb_key {A : Type} (key : A -> string) (k : string) (l : list A) :
  existsb (String.eqb k) (map key l)
  = match find (fun x => key x =? k) l with
    | Some _ => true
    | None => false
    end.
Proof.
  induction l as [|x l IH]; simpl; [reflexivity|].
  rewrite String.eqb_sym. now destruct (key x =? k).
Qed.

Lemma total_sumZ {A : Type} (field : A -> Z) (l : list A) :
  total field l = sumZ (map field l).
Proof.
  unfold total.
  assert (H : forall a, fold_left (fun sum item => (sum + field item)%Z) l a
                        = (a + sumZ (map field l))%Z).
  { induction l as [|x l IH]; intros a; simpl; [lia|]. rewrite IH. lia. }
  apply H.
Qed.

Section AggregatorOrder.

Variable monthLabel : string -> string.
Variable formatDate : string -> string.
Variable formatCurrency : float -> string.
Variable randomColor : nat -> string.

Local Notation GET upstream :=
  (getNotion monthLabel formatDate formatCurrency randomColor upstream).

Lemma monthly_names (sales : list NormalizedSale) :
  forall l,
    map mb_name (fold_left (monthlyStep monthLabel) sales l)
    = map mb_name l
      ++ firstSeen (map mb_name l) (monthLabels monthLabel sales).
Proof.
  induction sales as [|sale sales IH]; intros l; simpl;
    [now rewrite app_nil_r|].
  rewrite IH. unfold monthlyStep.
  destruct (orNull (date sale)) as [d|]; [|reflexivity].
  cbn [firstSeen]. rewrite (existsb_key mb_name (monthLabel d) l).
  change (find (fun x => mb_name x =? monthLabel d) l)
    with (find (isMonth (monthLabel d)) l).
  destruct (find (isMonth (monthLabel d)) l).
  - now rewrite updateFirst_keys.
  - rewrite map_app. simpl. now rewrite <- app_assoc.
Qed.

Lemma product_names (sales : list NormalizedSale) :
  forall l,
    map pb_name (fold_left (productStep randomColor) sales l)
    = map pb_name l ++ firstSeen (map pb_name l) (map productName sales).
Proof.
  induction sales as [|sale sales IH]; intros l; simpl;
    [now rewrite app_nil_r|].
  rewrite IH. unfold productStep. cbn [firstSeen].
  rewrite (existsb_key pb_name (productName sale) l).
  change (find (fun x => pb_name x =? productName sale) l)
    with (find (isProduct (productName sale)) l).
  destruct (find (isProduct (productName sale)) l).
  - now rewrite updateFirst_keys.
  - rewrite map_app. simpl. now rewrite <- app_assoc.
Qed.

(** X7: the monthly buckets of the answer are named by the month labels of
    the dated sales and the product buckets by the product names of the
    sales, each name once, in the order of its first occurrence in the
    input. *)
Theorem buckets_in_first_seen_order (rows : list Notion.Page)
  (sales : list NormalizedSale) :
  normalizeAll rows = Ok sales ->
  exists m p o,
    GET (Ok (mkQuery (Some rows))) = mkResponse 200 (GetSuccess true m p o)
    /\ map mb_name m = firstSeen [] (monthLabels monthLabel sales)
    /\ map pb_name p = firstSeen [] (map productName sales)
    /\ NoDup (map mb_name m) /\ NoDup (map pb_name p).
Proof.
  intros H. eexists _, _, _.
  split; [exact (getNotion_shaped _ _ _ _ rows sales H)|].
  split; [exact (monthly_names sales [])|].
  split; [exact (product_names sales [])|].
  split; [apply monthlyOf_NoDup|apply productsOf_NoDup].
Qed.

Lemma monthlyStep_total (g : MonthlyBucket -> Z) (inc : float -> Z)
  (l : list MonthlyBucket) (sale : NormalizedSale) :
  (forall a m, g (addSale a m) = (g m + inc a)%Z) ->
  (forall n a, g (mkMonthly n a 1 1) = inc a) ->
  sumZ (map g (monthlyStep monthLabel l sale))
  = (sumZ (map g l)
     + match orNull (date sale) with
       | Some _ => inc (amount sale)
       | None => 0
       end)%Z.
Proof.
  intros Hadd Hnew. unfold monthlyStep.
  destruct (orNull (date sale)) as [d|]; [|lia].
  destruct (find (isMonth (monthLabel d)) l) eqn:Ef.
  - apply updateFirst_sum; [apply Hadd|congruence].
  - rewrite map_app, sumZ_app. simpl. rewrite Hnew. lia.
Qed.

Lemma monthly_total (g : MonthlyBucket -> Z) (inc : float -> Z)
  (sales : list NormalizedSale) :
  (forall a m, g (addSale a m) = (g m + inc a)%Z) ->
  (forall n a, g (mkMonthly n a 1 1) = inc a) ->
  Forall dateOk sales ->
  total g (fold_left (monthlyStep monthLabel) sales [])
  = sumZ (map (fun sale => inc (amount sale)) (filter hasDate sales)).
Proof.
  intros Hadd Hnew Hok. rewrite total_sumZ.
  rewrite (fold_left_measure (monthlyStep monthLabel)
             (fun l => sumZ (map g l))
             (fun s => match orNull (date s) with
                       | Some _ => inc (amount s)
                       | None => 0%Z
                       end)).
  - simpl. rewrite <- sumZ_filter.
    apply (sumZ_map_ext _ _ dateOk _ Hok).
    intros sale Hs. unfold hasDate. rewrite Hs. now destruct (date sale).
  - intros l sale. now apply monthlyStep_total.
Qed.

(** X8: the counting metrics that the dashboard computes from a fetched
    answer: Total Orders is the number of dated sales, and New Customers
    equals Total Orders. *)
Theorem metrics_of_fetched_data (rows : list Notion.Page)
  (sales : list NormalizedSale) :
  normalizeAll rows = Ok sales ->
  exists m p o,
    GET (Ok (mkQuery (Some rows))) = mkResponse 200 (GetSuccess true m p o)
    /\ totalOrders m = countZ hasDate sales
    /\ totalCustomers m = totalOrders m.
Proof.
  intros H. pose proof (normalizeAll_dateOk rows sales H) as Hok.
  eexists _, _, _.
  split; [exact (getNotion_shaped _ _ _ _ rows sales H)|].
  unfold totalOrders, totalCustomers.
  rewrite (monthly_total mb_orders (fun _ => 1%Z) sales) by
    (try reflexivity; assumption).
  rewrite (monthly_total mb_customers (fun _ => 1%Z) sales) by
    (try reflexivity; assumption).
  repeat split. unfold countZ. apply sumZ_ones.
Qed.

End AggregatorOrder.

Lemma buckets_in_first_seen_order_witness :
  normalizeAll sampleRows = Ok sampleSales
  /\ exists m p o,
       getNotion sampleMonthLabel sampleDate sampleCurrency sampleColor
                 (Ok (mkQuery (Some sampleRows)))
       = mkResponse 200 (GetSuccess true m p o)
       /\ map mb_name m = firstSeen [] (monthLabels sampleMonthLabel sampleSales)
       /\ map pb_name p = firstSeen [] (map productName sampleSales)
       /\ NoDup (map mb_name m) /\ NoDup (map pb_name p).
Proof.
  split; [reflexivity|].
  apply (buckets_in_first_seen_order sampleMonthLabel sampleDate
           sampleCurrency sampleColor sampleRows sampleSales).
  reflexivity.
Defined.

Lemma metrics_of_fetched_data_witness :
  normalizeAll sampleRows = Ok sampleSales
  /\ exists m p o,
       getNotion sampleMonthLabel sampleDate sampleCurrency sampleColor
                 (Ok (mkQuery (Some sampleRows)))
       = mkResponse 200 (GetSuccess true m p o)
       /\ totalOrders m = countZ hasDate sampleSales
       /\ totalCustomers m = totalOrders m.
Proof.
  split; [reflexivity|].
  apply (metrics_of_fetched_data sampleMonthLabel sampleDate sampleCurrency
           sampleColor sampleRows sampleSales).
  reflexivity.
Defined.

(** ** The colours do not touch the figures *)

Lemma updateFirst_figures (k : string) (a : float) (l : list ProductBucket) :
  forall l',
    map pb_name l = map pb_name l' -> map pb_value l = map pb_value l' ->
    map pb_value (updateFirst (isProduct k) (addValue a) l)
    = map pb_value (updateFirst (isProduct k) (addValue a) l').
Proof.
  induction l as [|x l IH]; intros [|x' l'] Hn Hv; simpl in *;
    try discriminate; [reflexivity|].
  injection Hn as Hx Hn. injection Hv as Hy Hv. unfold isProduct at 1 3.
  rewrite <- Hx. destruct (pb_name x =? k); simpl.
  - now rewrite Hy, Hv.
  - now rewrite Hy, (IH l' Hn Hv).
Qed.

Lemma productStep_figures (randomColor randomColor' : nat -> string)
  (sale : NormalizedSale) (l l' : list ProductBucket) :
  map pb_name l = map pb_name l' /\ map pb_value l = map pb_value l' ->
  map pb_name (productStep randomColor l sale)
  = map pb_name (productStep randomColor' l' sale)
  /\ map pb_value (productStep randomColor l sale)
     = map pb_value (productStep randomColor' l' sale).
Proof.
  intros [Hn Hv]. unfold productStep.
  pose proof (existsb_key pb_name (productName sale) l) as E.
  pose proof (existsb_key pb_name (productName sale) l') as E'.
  rewrite Hn, E' in E.
  change (find (fun x => pb_name x =? productName sale) l)
    with (find (isProduct (productName sale)) l) in E.
  change (find (fun x => pb_name x =? productName sale) l')
    with (find (isProduct (productName sale)) l') in E.
  destruct (find (isProduct (productName sale)) l),
    (find (isProduct (productName sale)) l'); try discriminate.
  - split; [now rewrite !updateFirst_keys|now apply updateFirst_figures].
  - rewrite !map_app, Hn, Hv. split; reflexivity.
Qed.

(** X9: the figures of the answer do not depend on the colours drawn: two
    runs on the same rows give the same monthly buckets, the same orders,
    and product buckets of the same names and values. *)
Theorem figures_independent_of_colours (monthLabel formatDate : string -> string)
  (formatCurrency : float -> string) (randomColor randomColor' : nat -> string)
  (rows : list Notion.Page) (sales : list NormalizedSale) :
  normalizeAll rows = Ok sales ->
  exists m p p' o,
    getNotion monthLabel formatDate formatCurrency randomColor
              (Ok (mkQuery (Some rows)))
    = mkResponse 200 (GetSuccess true m p o)
    /\ getNotion monthLabel formatDate formatCurrency randomColor'
                 (Ok (mkQuery (Some rows)))
       = mkResponse 200 (GetSuccess true m p' o)
    /\ map pb_name p = map pb_name p' /\ map pb_value p = map pb_value p'.
Proof.
  intros H. eexists _, _, _, _.
  split; [exact (getNotion_shaped _ _ _ randomColor rows sales H)|].
  split; [exact (getNotion_shaped _ _ _ randomColor' rows sales H)|].
  assert (G : forall l l',
             map pb_name l = map pb_name l' /\ map pb_value l = map pb_value l' ->
             map pb_name (fold_left (productStep randomColor) sales l)
             = map pb_name (fold_left (productStep randomColor') sales l')
             /\ map pb_value (fold_left (productStep randomColor) sales l)
                = map pb_value (fold_left (productStep randomColor') sales l')).
  { clear H. induction sales as [|sale sales IH]; intros l l' Hl; simpl;
      [exact Hl|].
    apply IH. now apply productStep_figures. }
  apply (G [] []). split; reflexivity.
Qed.

Lemma figures_independent_of_colours_witness :
  normalizeAll sampleRows = Ok sampleSales
  /\ exists m p p' o,
       getNotion sampleMonthLabel sampleDate sampleCurrency sampleColor
                 (Ok (mkQuery (Some sampleRows)))
       = mkResponse 200 (GetSuccess true m p o)
       /\ getNotion sampleMonthLabel sampleDate sampleCurrency
                    (fun _ => "#ffffff") (Ok (mkQuery (Some sampleRows)))
          = mkResponse 200 (GetSuccess true m p' o)
       /\ map pb_name p = map pb_name p' /\ map pb_value p = map pb_value p'.
Proof.
  split; [reflexivity|].
  apply (figures_independent_of_colours sampleMonthLabel sampleDate
           sampleCurrency sampleColor (fun _ => "#ffffff") sampleRows
           sampleSales).
  reflexivity.
Defined.

(** ** The form *)

Lemma trim_not_empty (s : string) : (trim s =? "") = false -> (s =? "") = false.
Proof. destruct s; [discriminate|reflexivity]. Qed.

Section AddFormProperties.

Variable nonPositive : string -> bool.

(** A form without errors has no empty field. *)
Lemma validateForm_fields (formData : FormData) :
  noErrors (validateForm nonPositive formData) = true ->
  (fd_amount formData =? "") = false
  /\ (fd_customerName formData =? "") = false
  /\ (fd_productName formData =? "") = false
  /\ (fd_date formData =? "") = false
  /\ (fd_paymentMethod formData =? "") = false.
Proof.
  unfold validateForm, noErrors. simpl.
  destruct (fd_amount formData =? "") eqn:Ea; simpl; [discriminate|].
  destruct (nonPositive (fd_amount formData)); [discriminate|].
  destruct (trim (fd_customerName formData) =? "") eqn:Ec; [discriminate|].
  destruct (trim (fd_productName formData) =? "") eqn:Ep; [discriminate|].
  destruct (fd_date formData =? "") eqn:Ed; [discriminate|].
  destruct (fd_paymentMethod formData =? "") eqn:Em; [discriminate|].
  intros _. repeat split; auto using trim_not_empty.
Qed.

(** X10: a form that passes [validateForm] passes the validation of the
    gateway: its request is never answered with the missing-fields
    rejection, and reaches Notion once. *)
Theorem validated_form_reaches_notion (formData : FormData)
  (databaseId : string) (axiosPost : NotionData -> result value) :
  noErrors (validateForm nonPositive formData) = true ->
  missingFields (bodyOfForm formData) = false
  /\ fst (postNotion databaseId axiosPost (Some (bodyOfForm formData)))
     = [notionData databaseId (bodyOfForm formData)].
Proof.
  intros H. destruct (validateForm_fields formData H) as (Ha & Hc & Hp & Hd & Hm).
  assert (Hv : missingFields (bodyOfForm formData) = false).
  { unfold missingFields, bodyOfForm. simpl. now rewrite Ha, Hc, Hp, Hd, Hm. }
  split; [exact Hv|]. now apply postNotion_forwarded.
Qed.

End AddFormProperties.

Lemma validated_form_reaches_notion_witness :
  noErrors (validateForm sampleNonPositive sampleForm) = true
  /\ missingFields (bodyOfForm sampleForm) = false
  /\ fst (postNotion "db" unauthorized (Some (bodyOfForm sampleForm)))
     = [notionData "db" (bodyOfForm sampleForm)].
Proof.
  split; [reflexivity|].
  apply (validated_form_reaches_notion sampleNonPositive sampleForm "db"
           unauthorized).
  reflexivity.
Defined.

(** ** The optimistic update, further *)

Section OptimisticUpdateFurther.

Variable monthLabel : string -> string.
Variable formatDate : string -> string.
Variable formatCurrency : float -> string.
Variable now : nat.

Local Notation submit st formData :=
  (handleFormSubmit monthLabel formatDate formatCurrency now st formData).

(** X12: after a submission, whatever the text of the amount, the recent
    orders start with the new order, marked completed, followed by the first
    nine of the orders before; so they are [min 10 (n + 1)], never more than
    ten. *)
Theorem recent_orders_keep_ten (st : Dashboard) (formData : FormData) :
  exists entry,
    recentOrders (submit st formData) = entry :: firstn 9 (recentOrders st)
    /\ oe_customer entry = fd_customerName formData
    /\ oe_product entry = fd_productName formData
    /\ oe_status entry = "completed"
    /\ List.length (recentOrders (submit st formData))
       = Nat.min 10 (S (List.length (recentOrders st))).
Proof.
  unfold handleFormSubmit. cbn [recentOrders]. unfold setRecentOrders.
  eexists. split; [reflexivity|]. repeat split.
  cbn [List.length]. rewrite length_firstn. lia.
Qed.

(** X13: a submission, whatever the text of the amount, leaves the colour
    of every product bucket as it was, and a bucket it adds takes its colour
    from the palette of six. *)
Theorem new_product_colour_from_palette (st : Dashboard)
  (formData : FormData) :
  map pb_color (productData (submit st formData))
  = map pb_color (productData st)
  \/ exists colour,
       In colour colors
       /\ map pb_color (productData (submit st formData))
          = map pb_color (productData st) ++ [colour].
Proof.
  unfold handleFormSubmit. cbn [productData]. unfold setProductData.
  destruct (find _ (productData st)).
  - left. rewrite map_map. apply map_ext. intros b.
    now destruct (pb_name b =? fd_productName formData).
  - right. eexists. split; [|now rewrite map_app].
    apply nth_In. apply Nat.mod_upper_bound. discriminate.
Qed.

(** X14: on a dashboard whose month names are unique, a submission raises
    Total Orders by one, whatever the text of the amount; it raises New
    Customers by one too, unless the month has a bucket and the customer
    shows in the recent orders, where New Customers stays. *)
Theorem submission_raises_totals (st : Dashboard) (formData : FormData) :
  NoDup (map mb_name (monthlyData st)) ->
  totalOrders (monthlyData (submit st formData))
  = (totalOrders (monthlyData st) + 1)%Z
  /\ totalCustomers (monthlyData (submit st formData))
     = (totalCustomers (monthlyData st)
        + match find (isMonth (monthLabel (fd_date formData)))
                     (monthlyData st) with
          | Some _ =>
              if existsb (fun order =>
                            (oe_customer order
                             =? fd_customerName formData)%string)
                         (recentOrders st)
              then 0
              else 1
          | None => 1
          end)%Z.
Proof.
  intros Hm. unfold handleFormSubmit. cbn [monthlyData].
  unfold totalOrders, totalCustomers. rewrite !total_sumZ.
  rewrite (setMonthlyData_updateFirst _ _ _ _ _ Hm).
  destruct (find (isMonth _) (monthlyData st)) eqn:Ef.
  - split.
    + apply updateFirst_sum; [reflexivity|congruence].
    + apply updateFirst_sum; [|congruence].
      intros x. cbn [mb_customers].
      destruct (existsb _ (recentOrders st)); lia.
  - rewrite !map_app, !sumZ_app. simpl. split; lia.
Qed.

End OptimisticUpdateFurther.

Lemma recent_orders_keep_ten_witness :
  exists entry,
    recentOrders
      (handleFormSubmit sampleMonthLabel sampleDate sampleCurrency 17
                        dashboardOfAnn sampleForm)
    = entry :: firstn 9 (recentOrders dashboardOfAnn)
    /\ oe_customer entry = fd_customerName sampleForm
    /\ oe_product entry = fd_productName sampleForm
    /\ oe_status entry = "completed"
    /\ List.length
         (recentOrders
            (handleFormSubmit sampleMonthLabel sampleDate sampleCurrency 17
                              dashboardOfAnn sampleForm))
       = Nat.min 10 (S (List.length (recentOrders dashboardOfAnn))).
Proof.
  apply (recent_orders_keep_ten sampleMonthLabel sampleDate sampleCurrency 17
           dashboardOfAnn sampleForm).
Defined.

Lemma new_product_colour_from_palette_witness :
  map pb_color
    (productData
       (handleFormSubmit sampleMonthLabel sampleDate sampleCurrency 17
                         dashboardOfAnn formOfCy))
  = map pb_color (productData dashboardOfAnn)
  \/ exists colour,
       In colour colors
       /\ map pb_color
            (productData
               (handleFormSubmit sampleMonthLabel sampleDate sampleCurrency 17
                                 dashboardOfAnn formOfCy))
          = map pb_color (productData dashboardOfAnn) ++ [colour].
Proof.
  apply (new_product_colour_from_palette sampleMonthLabel sampleDate
           sampleCurrency 17 dashboardOfAnn formOfCy).
Defined.

Lemma submission_raises_totals_witness :
  NoDup (map mb_name (monthlyData dashboardOfAnn))
  /\ totalOrders
       (monthlyData
          (handleFormSubmit sampleMonthLabel sampleDate sampleCurrency 17
                            dashboardOfAnn sampleForm))
     = (totalOrders (monthlyData dashboardOfAnn) + 1)%Z
  /\ totalCustomers
       (monthlyData
          (handleFormSubmit sampleMonthLabel sampleDate sampleCurrency 17
                            dashboardOfAnn sampleForm))
     = (totalCustomers (monthlyData dashboardOfAnn)
        + match find (isMonth (sampleMonthLabel (fd_date sampleForm)))
                     (monthlyData dashboardOfAnn) with
          | Some _ =>
              if existsb (fun order =>
                            (oe_customer order
                             =? fd_customerName sampleForm)%string)
                         (recentOrders dashboardOfAnn)
              then 0
              else 1
          | None => 1
          end)%Z.
Proof.
  split; [repeat constructor; simpl; tauto|].
  apply (submission_raises_totals sampleMonthLabel sampleDate sampleCurrency
           17 dashboardOfAnn sampleForm).
  repeat constructor; simpl; tauto.
Defined.

(** The optimistic update on the sample dashboard, evaluated. *)
Example handleFormSubmit_of_Bob :
  handleFormSubmit sampleMonthLabel sampleDate sampleCurrency 17
                   dashboardOfAnn sampleForm
  = dashboardAfterBob.
Proof. vm_compute. reflexivity. Qed.

Example handleFormSubmit_of_Cy :
  handleFormSubmit sampleMonthLabel sampleDate sampleCurrency 17
                   dashboardOfAnn formOfCy
  = dashboardAfterCy.
Proof. vm_compute. reflexivity. Qed.

(** ** Loading, the cache and the refresh *)

(** X15: after a fetch that succeeded at [t0], a fetch that fails at [t1]
    records its error and leaves the cache alone; it puts the collections of
    the successful fetch into the state when less than an hour has passed,
    and leaves the state as it finds it otherwise; what the component then
    renders is the error screen with the message, not these collections,
    unless the message is empty. *)
Theorem cache_serves_last_fetch_for_an_hour (answer : Response GetBody)
  (m : list MonthlyBucket) (p : list ProductBucket) (o : list OrderEntry)
  (statusText statusText' : string) (t0 t1 : Z) (storage : option CachedData)
  (view later : View) (failed : Fetched GetBody) (message : string) :
  ok answer = true -> res_body answer = GetSuccess true m p o ->
  thrownByFetch failed statusText' = Some message ->
  let cache := snd (fetchData (Responded answer) statusText t0 storage view) in
  let after := fetchData failed statusText' t1 cache later in
  fst (fetchData (Responded answer) statusText t0 storage view)
  = mkView (mkDashboard m p o) false None
  /\ render (fst (fetchData (Responded answer) statusText t0 storage view))
     = Main (mkDashboard m p o)
  /\ snd after = cache
  /\ v_error (fst after) = Some message
  /\ v_isLoading (fst after) = false
  /\ v_data (fst after)
     = (if (t1 - t0 <? 3600000)%Z then mkDashboard m p o else v_data later)
  /\ render (fst after)
     = if message =? "" then Main (v_data (fst after))
       else ErrorScreen message.
Proof.
  intros Hok Hbody Hthrown.
  assert (Hfirst : fetchData (Responded answer) statusText t0 storage view
                   = (mkView (mkDashboard m p o) false None,
                      Some (mkCached (Some m) (Some p) (Some o) t0))).
  { unfold fetchData, thrownByFetch. now rewrite Hok, Hbody. }
  cbv zeta. rewrite Hfirst. unfold fetchData. rewrite Hthrown.
  cbn [fst snd c_timestamp c_monthly c_products c_orders orEmpty].
  split; [reflexivity|]. split; [reflexivity|].
  destruct failed; cbn [fst snd v_error v_isLoading v_data];
    repeat split; try reflexivity;
    unfold render, orNull; cbn [v_isLoading v_error v_data];
    now destruct (message =? "").
Qed.

Lemma cache_serves_last_fetch_for_an_hour_witness :
  ok (mkResponse 200 (GetSuccess true [mkMonthly "Jan 2025" 100 1 1] [] []))
  = true
  /\ thrownByFetch gatewayDown "" = Some "Failed to fetch"
  /\ render (fst (fetchData gatewayDown "" 3599999
                     (snd (fetchData
                             (Responded
                                (mkResponse 200
                                   (GetSuccess true
                                      [mkMonthly "Jan 2025" 100 1 1] [] [])))
                             "OK" 0 None emptyView))
                     emptyView))
     = ErrorScreen "Failed to fetch".
Proof.
  split; [reflexivity|]. split; [reflexivity|].
  apply (cache_serves_last_fetch_for_an_hour
           (mkResponse 200 (GetSuccess true [mkMonthly "Jan 2025" 100 1 1] [] []))
           [mkMonthly "Jan 2025" 100 1 1] [] [] "OK" "" 0 3599999 None
           emptyView emptyView gatewayDown "Failed to fetch");
    reflexivity.
Defined.

Section Refresh.

Variable monthLabel : string -> string.
Variable formatDate : string -> string.
Variable formatCurrency : float -> string.
Variable randomColor : nat -> string.

Local Notation GET upstream :=
  (getNotion monthLabel formatDate formatCurrency randomColor upstream).

Lemma getNotion_fails (upstream : result QueryData) :
  fetchFails upstream ->
  exists error,
    GET upstream
    = mkResponse 500
        (GetFailure false "Failed to fetch data from Notion" error).
Proof.
  intros H.
  assert (Hthrow : exists error,
             fetchAndShape monthLabel formatDate formatCurrency randomColor
                           upstream = Throw error).
  { destruct upstream as [response|error]; simpl in *; [|now exists error].
    destruct (results response) as [rows|]; [|now eexists].
    destruct (normalizeAll_raises rows H) as [reading Hr].
    exists (TypeError reading). unfold shape. now apply forEach_raises. }
  destruct Hthrow as [error Hf]. eexists.
  exact (getNotion_catch _ _ _ _ upstream error Hf).
Qed.

(** X16: when the fetch of the gateway fails, the first load reports
    "Server returned 500" and falls back on the cache, whereas a refresh
    keeps the collections of the dashboard and clears the error: the
    failure answer of the gateway does not reach the user of Retry. *)
Theorem refresh_hides_gateway_failure (upstream : result QueryData)
  (statusText : string) (nowMs : Z) (storage : option CachedData)
  (view : View) :
  fetchFails upstream ->
  refreshData (Responded (GET upstream)) view = mkView (v_data view) false None
  /\ v_error (fst (fetchData (Responded (GET upstream)) statusText nowMs
                              storage view))
     = Some ("Server returned 500: " ++ statusText)%string
  /\ snd (fetchData (Responded (GET upstream)) statusText nowMs storage view)
     = storage.
Proof.
  intros H. destruct (getNotion_fails upstream H) as [error ->].
  repeat split.
Qed.

End Refresh.

Lemma refresh_hides_gateway_failure_witness :
  fetchFails notFound
  /\ refreshData
       (Responded (getNotion sampleMonthLabel sampleDate sampleCurrency
                             sampleColor notFound))
       emptyView
     = mkView (v_data emptyView) false None
  /\ v_error (fst (fetchData
                     (Responded (getNotion sampleMonthLabel sampleDate
                                           sampleCurrency sampleColor notFound))
                     "Internal Server Error" 0 None emptyView))
     = Some ("Server returned 500: " ++ "Internal Server Error")%string
  /\ snd (fetchData
            (Responded (getNotion sampleMonthLabel sampleDate sampleCurrency
                                  sampleColor notFound))
            "Internal Server Error" 0 None emptyView)
     = None.
Proof.
  split; [exact I|].
  apply (refresh_hides_gateway_failure sampleMonthLabel sampleDate
           sampleCurrency sampleColor notFound "Internal Server Error" 0 None
           emptyView).
  exact I.
Defined.
